(** * glances/cpu_percent.py: the time-gated cache of CPU statistics

    A shallow embedding of the class [CpuPercent] and the properties of its
    refresh policy.  The three accessors ([get] with and without [percpu],
    and [get_info]) mutate the instance and call into psutil and into
    /proc/cpuinfo: they are embedded in a small monad that threads the
    instance, lets a call raise, and logs every call that leaves the
    process. *)

From Stdlib Require Import ZArith QArith Lqa Floats Ascii String.
From stdpp Require Import base option list gmap strings.

#[local] Set Warnings "-clear-no-such-hyp".

(** ** Python values *)

(** The values the dictionaries of this module hold: [str], [int], [float]
    (a binary64, as in CPython). *)
Inductive value :=
| VStr (s : string)
| VInt (n : Z)
| VFloat (x : float).

(** ** The external collaborators *)

(** Modelled from the spec: the class [glances.timer.Timer], imported on
    line 22, is not among the sources.  Section 3 (RefreshTimer) gives it an
    absolute expiry, "created with a duration offset from now", and the
    operation is_due, "true iff current time >= expiry".  [now] is the
    reading of the wall clock, in seconds. *)
Record Timer := { target : Q }.

Definition Timer_new (now duration : Q) : Timer :=
  {| target := now + duration |}.

Definition finished (t : Timer) (now : Q) : bool :=
  Qle_bool (target t) now.

(** One record of [psutil.cpu_times_percent(percpu=True)]: a named tuple
    whose fields depend on the platform.  [user], [system] and [idle] exist
    everywhere; [hasattr] on one of the others is [is_Some] here. *)
Record scputimes := {
  user : float;
  system : float;
  idle : float;
  nice : option float;
  iowait : option float;
  irq : option float;
  softirq : option float;
  steal : option float;
  guest : option float;
  guest_nice : option float }.

(** The named tuple of [psutil.cpu_freq()]. *)
Record scpufreq := { current : float; min : float; max : float }.

(** What the operating system answers during one call of an accessor.  A
    reply [None] is a call that raises; for [cpu_freq] it also stands for the
    reply [None] of psutil on a platform without frequency information, whose
    attribute access raises.  [cpu_freq_reply n] answers the [n]-th call of
    [psutil.cpu_freq()] made by the accessor.  [proc_cpuinfo] is the result
    of [open('/proc/cpuinfo', 'r').readlines()]. *)
Record OS := {
  clock : Q;
  cpu_percent_reply : option float;
  cpu_times_percent_reply : option (list scputimes);
  cpu_freq_reply : nat -> option scpufreq;
  proc_cpuinfo : option (list string) }.

(** The calls that leave the process. *)
Inductive Call :=
| psutil_cpu_percent
| psutil_cpu_times_percent
| psutil_cpu_freq
| open_proc_cpuinfo.

(** ** The instance *)

Record CpuPercent := mkCpuPercent {
  cpu_info : gmap string value;
  cpu_percent : value;
  percpu_percent : list (gmap string value);
  cached_time : Q;
  timer_cpu_info : Timer;
  timer_cpu : Timer;
  timer_percpu : Timer }.

Definition set_cpu_info (v : gmap string value) (self : CpuPercent) :=
  mkCpuPercent v (cpu_percent self) (percpu_percent self) (cached_time self)
    (timer_cpu_info self) (timer_cpu self) (timer_percpu self).

Definition set_cpu_percent (v : value) (self : CpuPercent) :=
  mkCpuPercent (cpu_info self) v (percpu_percent self) (cached_time self)
    (timer_cpu_info self) (timer_cpu self) (timer_percpu self).

Definition set_percpu_percent (v : list (gmap string value)) (self : CpuPercent) :=
  mkCpuPercent (cpu_info self) (cpu_percent self) v (cached_time self)
    (timer_cpu_info self) (timer_cpu self) (timer_percpu self).

Definition set_timer_cpu_info (t : Timer) (self : CpuPercent) :=
  mkCpuPercent (cpu_info self) (cpu_percent self) (percpu_percent self)
    (cached_time self) t (timer_cpu self) (timer_percpu self).

Definition set_timer_cpu (t : Timer) (self : CpuPercent) :=
  mkCpuPercent (cpu_info self) (cpu_percent self) (percpu_percent self)
    (cached_time self) (timer_cpu_info self) t (timer_percpu self).

Definition set_timer_percpu (t : Timer) (self : CpuPercent) :=
  mkCpuPercent (cpu_info self) (cpu_percent self) (percpu_percent self)
    (cached_time self) (timer_cpu_info self) (timer_cpu self) t.

(** ** The monad of the methods *)

(** A method either returns or raises; either way it leaves an instance
    behind (what it assigned before raising stays assigned) and the list of
    the external calls it made, oldest first. *)
Inductive result (A : Type) :=
| Return (a : A)
| Raise.
Arguments Return {A} a.
Arguments Raise {A}.

Definition M (A : Type) : Type :=
  CpuPercent -> result A * CpuPercent * list Call.

Definition ret {A} (a : A) : M A := fun self => (Return a, self, []).

Definition bind {A B} (m : M A) (k : A -> M B) : M B := fun self =>
  match m self with
  | (Return a, self1, calls1) =>
      let '(r, self2, calls2) := k a self1 in (r, self2, calls1 ++ calls2)
  | (Raise, self1, calls1) => (Raise, self1, calls1)
  end.

Declare Scope py_scope.
Delimit Scope py_scope with py.
Notation "x <- m ;; k" := (bind m (fun x => k))
  (at level 100, m at next level, right associativity) : py_scope.
Notation "m ;; k" := (bind m (fun _ => k))
  (at level 100, right associativity) : py_scope.

(** [self.f] *)
Definition attr {A} (f : CpuPercent -> A) : M A :=
  fun self => (Return (f self), self, []).

(** [self.f = v], as the setter [upd] *)
Definition assign (upd : CpuPercent -> CpuPercent) : M unit :=
  fun self => (Return tt, upd self, []).

(** A call that leaves the process, with the reply of the system. *)
Definition extern {A} (c : Call) (reply : option A) : M A :=
  fun self =>
    (match reply with Some a => Return a | None => Raise end, self, [c]).

(** [try: body except: handler], with a bare [except]. *)
Definition try_except {A} (body handler : M A) : M A := fun self =>
  match body self with
  | (Raise, self1, calls1) =>
      let '(r, self2, calls2) := handler self1 in (r, self2, calls1 ++ calls2)
  | other => other
  end.

(** [for x in l: body] *)
Fixpoint for_each {A} (l : list A) (body : A -> M unit) : M unit :=
  match l with
  | [] => ret tt
  | x :: l' => (body x ;; for_each l' body)%py
  end.

(** [enumerate(l)] *)
Definition enumerate {A} (l : list A) : list (nat * A) := imap pair l.

(** The three projections of what a method leaves. *)
Definition returned {A} (o : result A * CpuPercent * list Call) : result A :=
  o.1.1.
Definition after {A} (o : result A * CpuPercent * list Call) : CpuPercent :=
  o.1.2.
Definition calls {A} (o : result A * CpuPercent * list Call) : list Call :=
  o.2.

(** ** Strings: what the parse of /proc/cpuinfo uses *)

(** [s.split(sep)] for a separator of one character. *)
Fixpoint split (sep : ascii) (s : string) : list string :=
  match s with
  | EmptyString => [EmptyString]
  | String c s' =>
      if Ascii.eqb c sep then EmptyString :: split sep s'
      else match split sep s' with
           | piece :: pieces => String c piece :: pieces
           | [] => [String c EmptyString]
           end
  end.

(** The bound [i] of a slice of a sequence of length [len], clamped the way
    Python does. *)
Definition slice_bound (len : nat) (i : Z) : nat :=
  Z.to_nat (if (i <? 0)%Z then Z.max 0 (Z.of_nat len + i)
            else Z.min (Z.of_nat len) i).

(** [s[start:stop]] *)
Definition slice (s : string) (start stop : Z) : string :=
  let a := slice_bound (String.length s) start in
  let b := slice_bound (String.length s) stop in
  String.substring a (b - a) s.

(** [readlines()[4].split(':')[1][1:-2]]; [None] when any step raises. *)
Definition cpuinfo_name (file : option (list string)) : option string :=
  match file with
  | None => None
  | Some lines =>
      match lines !! 4%nat with
      | None => None
      | Some line =>
          match split ":"%char line !! 1%nat with
          | None => None
          | Some field => Some (slice field 1 (-2))
          end
      end
  end.

(** ** The class *)

Local Open Scope py_scope.

(** [CpuPercent(cached_time)], built when the clock reads [now]. *)
Definition __init__ (now : Q) (cached_time : Q) : CpuPercent :=
  {| cpu_info := ∅;
     cpu_percent := VInt 0;
     percpu_percent := [];
     cached_time := 1;
     timer_cpu_info := Timer_new now 0;
     timer_cpu := Timer_new now 0;
     timer_percpu := Timer_new now 0 |}.

Definition get_key : M string := ret "cpu_number"%string.

(** [self.cpu_info[k] = v] *)
Definition setitem_cpu_info (k : string) (v : value) : M unit :=
  assign (fun self => set_cpu_info (<[k := v]> (cpu_info self)) self).

(** [Timer(self.cached_time)] *)
Definition new_timer (os : OS) : M Timer :=
  c <- attr cached_time ;; ret (Timer_new (clock os) c).

Definition get_info (os : OS) : M (gmap string value) :=
  (if_ <- attr (fun self => finished (timer_cpu_info self) (clock os)) ;;
   if if_ : bool then
     try_except
       (name <- extern open_proc_cpuinfo (cpuinfo_name (proc_cpuinfo os)) ;;
        setitem_cpu_info "cpu_name" (VStr name))
       (setitem_cpu_info "cpu_name" (VStr "CPU")) ;;
     freq <- extern psutil_cpu_freq (cpu_freq_reply os 0) ;;
     setitem_cpu_info "cpu_hz_current" (VFloat (current freq)) ;;
     freq <- extern psutil_cpu_freq (cpu_freq_reply os 1) ;;
     setitem_cpu_info "cpu_hz" (VFloat (max freq)) ;;
     t <- new_timer os ;;
     assign (set_timer_cpu_info t)
   else ret tt) ;;
  attr cpu_info.

Definition __get_cpu (os : OS) : M value :=
  (if_ <- attr (fun self => finished (timer_cpu self) (clock os)) ;;
   if if_ : bool then
     x <- extern psutil_cpu_percent (cpu_percent_reply os) ;;
     assign (set_cpu_percent (VFloat x)) ;;
     t <- new_timer os ;;
     assign (set_timer_cpu t)
   else ret tt) ;;
  attr cpu_percent.

(** [cpu[k] = v] when the record has the attribute, which is when [o] is
    [Some v]. *)
Definition setitem_if_hasattr (k : string) (o : option float)
    (cpu : gmap string value) : gmap string value :=
  match o with
  | Some v => <[k := VFloat v]> cpu
  | None => cpu
  end.

Section Percpu.

(** The builtin [round(x, ndigits)] of Python on a [float]. *)
Variable round : float -> Z -> float.

(** The dictionary the loop builds for one record, [key] being what
    [self.get_key()] returned. *)
Definition cpu_dict (key : string) (cpu_number : nat) (cputimes : scputimes)
    : gmap string value :=
  let cpu : gmap string value :=
    <["idle" := VFloat (idle cputimes)]>
    (<["system" := VFloat (system cputimes)]>
    (<["user" := VFloat (user cputimes)]>
    (<["total" := VFloat (round (100 - idle cputimes)%float 1)]>
    (<["cpu_number" := VInt (Z.of_nat cpu_number)]>
    (<["key" := VStr key]> ∅))))) in
  let cpu := setitem_if_hasattr "nice" (nice cputimes) cpu in
  let cpu := setitem_if_hasattr "iowait" (iowait cputimes) cpu in
  let cpu := setitem_if_hasattr "irq" (irq cputimes) cpu in
  let cpu := setitem_if_hasattr "softirq" (softirq cputimes) cpu in
  let cpu := setitem_if_hasattr "steal" (steal cputimes) cpu in
  let cpu := setitem_if_hasattr "guest" (guest cputimes) cpu in
  let cpu := setitem_if_hasattr "guest_nice" (guest_nice cputimes) cpu in
  cpu.

(** The body of the loop of [__get_percpu]. *)
Definition percpu_body (os : OS) (item : nat * scputimes) : M unit :=
  key <- get_key ;;
  let cpu := cpu_dict key item.1 item.2 in
  assign (fun self => set_percpu_percent (percpu_percent self ++ [cpu]) self) ;;
  t <- new_timer os ;;
  assign (set_timer_percpu t).

Definition __get_percpu (os : OS) : M (list (gmap string value)) :=
  (if_ <- attr (fun self => finished (timer_percpu self) (clock os)) ;;
   if if_ : bool then
     assign (set_percpu_percent []) ;;
     records <- extern psutil_cpu_times_percent (cpu_times_percent_reply os) ;;
     for_each (enumerate records) (percpu_body os)
   else ret tt) ;;
  attr percpu_percent.

(** What [get] returns: a number, or the list of the cores. *)
Definition get_type (percpu : bool) : Type :=
  if percpu then list (gmap string value) else value.

Definition get (percpu : bool) (os : OS) : M (get_type percpu) :=
  match percpu with
  | true => __get_percpu os
  | false => __get_cpu os
  end.

End Percpu.

Local Close Scope py_scope.

(** ** Calls, one after the other *)

(** The three gated accessors: [get(percpu)] and [get_info()]. *)
Inductive Op :=
| Get (percpu : bool)
| GetInfo.

(** The timer that gates an accessor, and the calls one refresh of it makes:
    [get_info] stops at the first frequency query that fails. *)
Definition timer_of (op : Op) : CpuPercent -> Timer :=
  match op with
  | Get false => timer_cpu
  | Get true => timer_percpu
  | GetInfo => timer_cpu_info
  end.

Definition refresh_calls (op : Op) (os : OS) : list Call :=
  match op with
  | Get false => [psutil_cpu_percent]
  | Get true => [psutil_cpu_times_percent]
  | GetInfo =>
      open_proc_cpuinfo :: psutil_cpu_freq ::
      match cpu_freq_reply os 0 with
      | Some _ => [psutil_cpu_freq]
      | None => []
      end
  end.

(** The query of psutil behind each accessor. *)
Definition provider_of (op : Op) : Call :=
  match op with
  | Get false => psutil_cpu_percent
  | Get true => psutil_cpu_times_percent
  | GetInfo => psutil_cpu_freq
  end.

#[global] Instance Op_eq_dec : EqDecision Op.
Proof. solve_decision. Defined.

#[global] Instance Call_eq_dec : EqDecision Call.
Proof. solve_decision. Defined.

(** What a method leaves, its value forgotten. *)
Definition forget {A} (o : result A * CpuPercent * list Call)
    : result unit * CpuPercent * list Call :=
  (match returned o with Return _ => Return tt | Raise => Raise end,
   after o, calls o).

Section Calls.

Variable round : float -> Z -> float.

Definition perform (op : Op) (os : OS) (self : CpuPercent)
    : result unit * CpuPercent * list Call :=
  match op with
  | Get percpu => forget (get round percpu os self)
  | GetInfo => forget (get_info os self)
  end.

(** The instance after a sequence of calls, each with the replies of the
    system at that moment. *)
Definition run (script : list (Op * OS)) (self : CpuPercent) : CpuPercent :=
  foldl (fun self step => after (perform step.1 step.2 self)) self script.

(** The list a per-core refresh builds from the records of the provider. *)
Definition percpu_dicts (records : list scputimes) : list (gmap string value) :=
  imap (cpu_dict round "cpu_number") records.

End Calls.

(** The instance once the loop has run over [dicts]: without a record the
    body never runs, and the timer is the one the loop found. *)
Definition after_loop (os : OS) (dicts : list (gmap string value))
    (self : CpuPercent) : CpuPercent :=
  match dicts with
  | [] => self
  | _ :: _ =>
      set_timer_percpu (Timer_new (clock os) (cached_time self))
        (set_percpu_percent (percpu_percent self ++ dicts) self)
  end.

(** The name the [try] statement of [get_info] stores: the parsed one, or
    the placeholder of the [except] branch. *)
Definition stored_name (os : OS) : string :=
  match cpuinfo_name (proc_cpuinfo os) with
  | Some name => name
  | None => "CPU"
  end.

(** The optional attributes of a record, with the key each is stored under. *)
Definition optional_fields : list (string * (scputimes -> option float)) :=
  [("nice", nice); ("iowait", iowait); ("irq", irq); ("softirq", softirq);
   ("steal", steal); ("guest", guest); ("guest_nice", guest_nice)].

(** The keys of the mapping [get_info] fills, and what it holds under them
    once filled. *)
Definition info_keys : gset string :=
  {[ "cpu_name"; "cpu_hz_current"; "cpu_hz" ]}.

Definition info_filled (info : gmap string value) : Prop :=
  dom info = info_keys /\
  (exists name, info !! "cpu_name" = Some (VStr name)) /\
  (exists x, info !! "cpu_hz_current" = Some (VFloat x)) /\
  (exists x, info !! "cpu_hz" = Some (VFloat x)).

(** The keys every sample of a core has. *)
Definition mandatory_keys : gset string :=
  {[ "key"; "cpu_number"; "total"; "user"; "system"; "idle" ]}.

(** [c in s], on strings. *)
Fixpoint contains (c : ascii) (s : string) : bool :=
  match s with
  | EmptyString => false
  | String c' s' => Ascii.eqb c' c || contains c s'
  end.

(** ** Inputs the examples run on *)

(** An instance of the builtin for the examples, which compare no rounded
    value: it leaves its argument alone. *)
Definition round_example (x : float) (ndigits : Z) : float := x.

(** The records of two cores; the second one reports [nice]. *)
Definition records_example : list scputimes :=
  [ {| user := 20; system := 10; idle := 70; nice := None;
       iowait := None; irq := None; softirq := None; steal := None;
       guest := None; guest_nice := None |};
    {| user := 5; system := 2.5; idle := 92; nice := Some 0.5%float;
       iowait := None; irq := None; softirq := None; steal := None;
       guest := None; guest_nice := None |} ].

(** The lines of a /proc/cpuinfo, each with its end of line, as [readlines]
    gives them. *)
Definition LF : string := String (ascii_of_nat 10) EmptyString.

Definition cpuinfo_example : list string :=
  (fun line => String.append line LF) <$>
  ["processor : 0"; "vendor_id : GenuineIntel"; "cpu family : 6";
   "model : 142"; "model name : Intel(R) Core(TM) i7-8550U CPU @ 1.80GHz";
   "stepping : 10"].

(** A system that answers every call, at time [t]. *)
Definition os_example (t : Q) : OS :=
  {| clock := t;
     cpu_percent_reply := Some 12.5%float;
     cpu_times_percent_reply := Some records_example;
     cpu_freq_reply := fun _ => Some {| current := 1800; min := 800; max := 3600 |};
     proc_cpuinfo := Some cpuinfo_example |}.

(** A system on which every call fails, at time [t]. *)
Definition os_failing (t : Q) : OS :=
  {| clock := t;
     cpu_percent_reply := None;
     cpu_times_percent_reply := None;
     cpu_freq_reply := fun _ => None;
     proc_cpuinfo := None |}.

(** A system whose first frequency query answers and whose second one
    fails, at time [t]. *)
Definition os_second_freq_failing (t : Q) : OS :=
  {| clock := t;
     cpu_percent_reply := Some 12.5%float;
     cpu_times_percent_reply := Some records_example;
     cpu_freq_reply := fun n =>
       match n with
       | O => Some {| current := 2000; min := 800; max := 3600 |}
       | S _ => None
       end;
     proc_cpuinfo := Some cpuinfo_example |}.

(** A system whose per-core sample succeeds with no record, at time [t]. *)
Definition os_no_core (t : Q) : OS :=
  {| clock := t;
     cpu_percent_reply := Some 0%float;
     cpu_times_percent_reply := Some [];
     cpu_freq_reply := fun _ => None;
     proc_cpuinfo := None |}.

(** The methods are straight-line code over [bind]: unfolding the monad and
    rewriting with the test of the timer and with the replies computes
    them. *)
Ltac unfold_py :=
  unfold get_info, __get_cpu, __get_percpu, percpu_body, get_key, new_timer,
    setitem_cpu_info, try_except, bind, attr, assign, extern, ret,
    returned, after, calls in *.

(** * What one call does *)

(** ** [__get_cpu] *)

Lemma get_cpu_cached os self :
  finished (timer_cpu self) (clock os) = false ->
  __get_cpu os self = (Return (cpu_percent self), self, []).
Proof. intros Hdue. unfold_py. rewrite Hdue. reflexivity. Qed.

Lemma get_cpu_refresh os self x :
  finished (timer_cpu self) (clock os) = true ->
  cpu_percent_reply os = Some x ->
  __get_cpu os self =
    (Return (VFloat x),
     set_timer_cpu (Timer_new (clock os) (cached_time self))
       (set_cpu_percent (VFloat x) self),
     [psutil_cpu_percent]).
Proof. intros Hdue Hx. unfold_py. rewrite Hdue, Hx. reflexivity. Qed.

Lemma get_cpu_raise os self :
  finished (timer_cpu self) (clock os) = true ->
  cpu_percent_reply os = None ->
  __get_cpu os self = (Raise, self, [psutil_cpu_percent]).
Proof. intros Hdue Hx. unfold_py. rewrite Hdue, Hx. reflexivity. Qed.

(** ** [get_info] *)

Lemma get_info_cached os self :
  finished (timer_cpu_info self) (clock os) = false ->
  get_info os self = (Return (cpu_info self), self, []).
Proof. intros Hdue. unfold_py. rewrite Hdue. reflexivity. Qed.

Lemma get_info_refresh os self f0 f1 :
  finished (timer_cpu_info self) (clock os) = true ->
  cpu_freq_reply os 0 = Some f0 ->
  cpu_freq_reply os 1 = Some f1 ->
  let info := <["cpu_hz" := VFloat (max f1)]>
                (<["cpu_hz_current" := VFloat (current f0)]>
                   (<["cpu_name" := VStr (stored_name os)]> (cpu_info self))) in
  get_info os self =
    (Return info,
     set_timer_cpu_info (Timer_new (clock os) (cached_time self))
       (set_cpu_info info self),
     [open_proc_cpuinfo; psutil_cpu_freq; psutil_cpu_freq]).
Proof.
  intros Hdue H0 H1. unfold_py. unfold stored_name.
  rewrite Hdue, H0, H1.
  destruct (cpuinfo_name (proc_cpuinfo os)); reflexivity.
Qed.

Lemma get_info_raise_first os self :
  finished (timer_cpu_info self) (clock os) = true ->
  cpu_freq_reply os 0 = None ->
  get_info os self =
    (Raise,
     set_cpu_info (<["cpu_name" := VStr (stored_name os)]> (cpu_info self)) self,
     [open_proc_cpuinfo; psutil_cpu_freq]).
Proof.
  intros Hdue H0. unfold_py. unfold stored_name.
  rewrite Hdue, H0.
  destruct (cpuinfo_name (proc_cpuinfo os)); reflexivity.
Qed.

Lemma get_info_raise_second os self f0 :
  finished (timer_cpu_info self) (clock os) = true ->
  cpu_freq_reply os 0 = Some f0 ->
  cpu_freq_reply os 1 = None ->
  get_info os self =
    (Raise,
     set_cpu_info
       (<["cpu_hz_current" := VFloat (current f0)]>
          (<["cpu_name" := VStr (stored_name os)]> (cpu_info self))) self,
     [open_proc_cpuinfo; psutil_cpu_freq; psutil_cpu_freq]).
Proof.
  intros Hdue H0 H1. unfold_py. unfold stored_name.
  rewrite Hdue, H0, H1.
  destruct (cpuinfo_name (proc_cpuinfo os)); reflexivity.
Qed.

(** ** [__get_percpu] *)

Section PercpuLoop.

Variable round : float -> Z -> float.

Lemma for_each_percpu_body os items : forall self,
  for_each items (percpu_body round os) self =
    (Return tt,
     after_loop os
       ((fun item => cpu_dict round "cpu_number" item.1 item.2) <$> items) self,
     []).
Proof.
  induction items as [|item items IH]; intros self; [reflexivity|].
  cbn [for_each]. unfold bind at 1.
  replace (percpu_body round os item self) with
    (Return tt,
     set_timer_percpu (Timer_new (clock os) (cached_time self))
       (set_percpu_percent
          (percpu_percent self ++ [cpu_dict round "cpu_number" item.1 item.2])
          self),
     @nil Call) by reflexivity.
  rewrite IH. rewrite fmap_cons.
  destruct items as [|item' items]; [reflexivity|].
  rewrite fmap_cons. cbn [after_loop].
  unfold set_timer_percpu, set_percpu_percent; cbn.
  rewrite <- app_assoc. reflexivity.
Qed.

Lemma map_enumerate {A B} (f : nat -> A -> B) (l : list A) :
  (fun item => f item.1 item.2) <$> enumerate l = imap f l.
Proof. unfold enumerate. rewrite fmap_imap. apply imap_ext. reflexivity. Qed.

Lemma get_percpu_cached os self :
  finished (timer_percpu self) (clock os) = false ->
  __get_percpu round os self = (Return (percpu_percent self), self, []).
Proof. intros Hdue. unfold_py. rewrite Hdue. reflexivity. Qed.

Lemma get_percpu_refresh os self records :
  finished (timer_percpu self) (clock os) = true ->
  cpu_times_percent_reply os = Some records ->
  __get_percpu round os self =
    (Return (percpu_dicts round records),
     after_loop os (percpu_dicts round records) (set_percpu_percent [] self),
     [psutil_cpu_times_percent]).
Proof.
  intros Hdue Hrecords. unfold __get_percpu, bind, attr, assign, extern.
  rewrite Hdue, Hrecords, for_each_percpu_body, map_enumerate.
  fold (percpu_dicts round records).
  destruct (percpu_dicts round records); reflexivity.
Qed.

Lemma get_percpu_raise os self :
  finished (timer_percpu self) (clock os) = true ->
  cpu_times_percent_reply os = None ->
  __get_percpu round os self =
    (Raise, set_percpu_percent [] self, [psutil_cpu_times_percent]).
Proof. intros Hdue Hrecords. unfold_py. rewrite Hdue, Hrecords. reflexivity. Qed.

End PercpuLoop.

(** * The dictionary of one core *)

Section CoreSample.

Variable round : float -> Z -> float.

Lemma lookup_setitem_if_hasattr k k' o (cpu : gmap string value) :
  setitem_if_hasattr k o cpu !! k' =
    if decide (k = k') then
      match o with Some v => Some (VFloat v) | None => cpu !! k' end
    else cpu !! k'.
Proof.
  unfold setitem_if_hasattr. destruct o as [v|].
  - rewrite lookup_insert. reflexivity.
  - destruct (decide (k = k')); reflexivity.
Qed.

(** Reading a literal key of [cpu_dict] goes through the seven conditional
    stores, then through the six of the literal. *)
Ltac lookup_cpu_dict :=
  unfold cpu_dict;
  repeat (rewrite lookup_setitem_if_hasattr; cbn [decide]);
  repeat (rewrite lookup_insert; cbn [decide]);
  try reflexivity.

Lemma cpu_dict_total key n cputimes :
  cpu_dict round key n cputimes !! "total" =
    Some (VFloat (round (100 - idle cputimes)%float 1)).
Proof. lookup_cpu_dict. Qed.

Lemma cpu_dict_key key n cputimes :
  cpu_dict round key n cputimes !! "key" = Some (VStr key).
Proof. lookup_cpu_dict. Qed.

Lemma cpu_dict_cpu_number key n cputimes :
  cpu_dict round key n cputimes !! "cpu_number" = Some (VInt (Z.of_nat n)).
Proof. lookup_cpu_dict. Qed.

Lemma cpu_dict_user key n cputimes :
  cpu_dict round key n cputimes !! "user" = Some (VFloat (user cputimes)).
Proof. lookup_cpu_dict. Qed.

Lemma cpu_dict_system key n cputimes :
  cpu_dict round key n cputimes !! "system" = Some (VFloat (system cputimes)).
Proof. lookup_cpu_dict. Qed.

Lemma cpu_dict_idle key n cputimes :
  cpu_dict round key n cputimes !! "idle" = Some (VFloat (idle cputimes)).
Proof. lookup_cpu_dict. Qed.

(** An optional attribute is stored under its key when the record has it,
    and the key is absent otherwise. *)
Lemma cpu_dict_optional key n cputimes k attribute :
  (k, attribute) ∈ optional_fields ->
  cpu_dict round key n cputimes !! k = VFloat <$> attribute cputimes.
Proof.
  unfold optional_fields. intros Hin.
  repeat (apply elem_of_cons in Hin as [[= -> ->]|Hin]);
    [ lookup_cpu_dict .. | by apply elem_of_nil in Hin ].
  all: match goal with |- context [match ?o with _ => _ end] => destruct o end;
    reflexivity.
Qed.

(** A refresh stores, and returns, one dictionary per record of the
    provider, in the order of the provider. *)
Lemma percpu_percent_after_loop os dicts self :
  percpu_percent (after_loop os dicts (set_percpu_percent [] self)) = dicts.
Proof. destruct dicts; reflexivity. Qed.

Lemma get_percpu_refresh_stored os self records :
  finished (timer_percpu self) (clock os) = true ->
  cpu_times_percent_reply os = Some records ->
  returned (__get_percpu round os self) = Return (percpu_dicts round records) /\
  percpu_percent (after (__get_percpu round os self)) = percpu_dicts round records.
Proof.
  intros Hdue Hrecords. rewrite (get_percpu_refresh _ _ _ records) by assumption.
  split; [reflexivity|]. apply percpu_percent_after_loop.
Qed.

Lemma lookup_percpu_dicts records i cpu :
  percpu_dicts round records !! i = Some cpu ->
  exists cputimes,
    records !! i = Some cputimes /\ cpu = cpu_dict round "cpu_number" i cputimes.
Proof. unfold percpu_dicts. intros H. by apply list_lookup_imap_Some in H. Qed.

End CoreSample.

(** * The samples of a per-core refresh *)

Section PercpuRefresh.

Variable round : float -> Z -> float.

(** C6.  A per-core refresh (timer due, provider answering [records])
    stores and returns one sample per record of the provider, and the
    [total] of every sample is [round(100 - idle, 1)] for the [idle] of the
    record at the same position. *)
Theorem percpu_total_is_rounded_busy os self records :
  finished (timer_percpu self) (clock os) = true ->
  cpu_times_percent_reply os = Some records ->
  exists samples,
    returned (__get_percpu round os self) = Return samples /\
    percpu_percent (after (__get_percpu round os self)) = samples /\
    length samples = length records /\
    forall i cpu, samples !! i = Some cpu ->
      exists cputimes,
        records !! i = Some cputimes /\
        cpu !! "total" = Some (VFloat (round (100 - idle cputimes)%float 1)).
Proof.
  intros Hdue Hrecords.
  destruct (get_percpu_refresh_stored round os self records Hdue Hrecords)
    as [Hret Hstored].
  exists (percpu_dicts round records). repeat split; try assumption.
  - apply length_imap.
  - intros i cpu Hcpu.
    destruct (lookup_percpu_dicts round records i cpu Hcpu) as (cputimes & Hi & ->).
    exists cputimes. split; [assumption | apply cpu_dict_total].
Qed.

(** C7.  In a per-core refresh the sample at position [i] is built from the
    record at position [i]: its [cpu_number] is [i]; [user], [system] and
    [idle] are always there, with the values of the record; and each of the
    seven optional fields is there if and only if the record has the
    attribute, with the value of the record. *)
Theorem percpu_fields_follow_record os self records :
  finished (timer_percpu self) (clock os) = true ->
  cpu_times_percent_reply os = Some records ->
  exists samples,
    returned (__get_percpu round os self) = Return samples /\
    percpu_percent (after (__get_percpu round os self)) = samples /\
    length samples = length records /\
    forall i cpu, samples !! i = Some cpu ->
      exists cputimes,
        records !! i = Some cputimes /\
        cpu !! "cpu_number" = Some (VInt (Z.of_nat i)) /\
        cpu !! "user" = Some (VFloat (user cputimes)) /\
        cpu !! "system" = Some (VFloat (system cputimes)) /\
        cpu !! "idle" = Some (VFloat (idle cputimes)) /\
        forall k attribute, (k, attribute) ∈ optional_fields ->
          (is_Some (cpu !! k) <-> is_Some (attribute cputimes)) /\
          cpu !! k = VFloat <$> attribute cputimes.
Proof.
  intros Hdue Hrecords.
  destruct (get_percpu_refresh_stored round os self records Hdue Hrecords)
    as [Hret Hstored].
  exists (percpu_dicts round records). repeat split; try assumption.
  - apply length_imap.
  - intros i cpu Hcpu.
    destruct (lookup_percpu_dicts round records i cpu Hcpu) as (cputimes & Hi & ->).
    exists cputimes. split; [assumption|].
    split; [apply cpu_dict_cpu_number|].
    split; [apply cpu_dict_user|].
    split; [apply cpu_dict_system|].
    split; [apply cpu_dict_idle|].
    intros k attribute Hk.
    rewrite (cpu_dict_optional round _ _ _ k attribute Hk).
    split; [|reflexivity]. apply fmap_is_Some.
Qed.

(** C10.  Every sample of a per-core refresh has a field [key], and it
    holds the string that [get_key] returns, which is ["cpu_number"]. *)
Theorem percpu_key_is_get_key os self records :
  finished (timer_percpu self) (clock os) = true ->
  cpu_times_percent_reply os = Some records ->
  exists samples,
    returned (__get_percpu round os self) = Return samples /\
    percpu_percent (after (__get_percpu round os self)) = samples /\
    length samples = length records /\
    forall i cpu self', samples !! i = Some cpu ->
      returned (get_key self') = Return "cpu_number"%string /\
      cpu !! "key" = Some (VStr "cpu_number").
Proof.
  intros Hdue Hrecords.
  destruct (get_percpu_refresh_stored round os self records Hdue Hrecords)
    as [Hret Hstored].
  exists (percpu_dicts round records). repeat split; try assumption.
  - apply length_imap.
  - rename select (_ !! _ = Some _) into Hcpu.
    destruct (lookup_percpu_dicts round records _ _ Hcpu) as (cputimes & Hi & ->).
    apply cpu_dict_key.
Qed.

End PercpuRefresh.

Lemma percpu_total_is_rounded_busy_witness :
  exists samples,
    returned (__get_percpu round_example (os_example 0) (__init__ 0 1)) =
      Return samples /\
    percpu_percent
      (after (__get_percpu round_example (os_example 0) (__init__ 0 1))) =
      samples /\
    length samples = length records_example /\
    forall i cpu, samples !! i = Some cpu ->
      exists cputimes,
        records_example !! i = Some cputimes /\
        cpu !! "total" =
          Some (VFloat (round_example (100 - idle cputimes)%float 1)).
Proof.
  apply (percpu_total_is_rounded_busy round_example (os_example 0)
           (__init__ 0 1) records_example); reflexivity.
Defined.

Lemma percpu_fields_follow_record_witness :
  exists samples,
    returned (__get_percpu round_example (os_example 0) (__init__ 0 1)) =
      Return samples /\
    percpu_percent
      (after (__get_percpu round_example (os_example 0) (__init__ 0 1))) =
      samples /\
    length samples = length records_example /\
    forall i cpu, samples !! i = Some cpu ->
      exists cputimes,
        records_example !! i = Some cputimes /\
        cpu !! "cpu_number" = Some (VInt (Z.of_nat i)) /\
        cpu !! "user" = Some (VFloat (user cputimes)) /\
        cpu !! "system" = Some (VFloat (system cputimes)) /\
        cpu !! "idle" = Some (VFloat (idle cputimes)) /\
        forall k attribute, (k, attribute) ∈ optional_fields ->
          (is_Some (cpu !! k) <-> is_Some (attribute cputimes)) /\
          cpu !! k = VFloat <$> attribute cputimes.
Proof.
  apply (percpu_fields_follow_record round_example (os_example 0)
           (__init__ 0 1) records_example); reflexivity.
Defined.

Lemma percpu_key_is_get_key_witness :
  exists samples,
    returned (__get_percpu round_example (os_example 0) (__init__ 0 1)) =
      Return samples /\
    percpu_percent
      (after (__get_percpu round_example (os_example 0) (__init__ 0 1))) =
      samples /\
    length samples = length records_example /\
    forall i cpu self', samples !! i = Some cpu ->
      returned (get_key self') = Return "cpu_number"%string /\
      cpu !! "key" = Some (VStr "cpu_number").
Proof.
  apply (percpu_key_is_get_key round_example (os_example 0)
           (__init__ 0 1) records_example); reflexivity.
Defined.

(** * The refresh policy *)

Lemma finished_later t now now' :
  finished t now = true -> (now <= now')%Q -> finished t now' = true.
Proof.
  unfold finished. rewrite !Qle_bool_iff. intros H1 H2.
  apply Qle_trans with now; assumption.
Qed.

Lemma finished_Timer_new_0 t0 now :
  (t0 <= now)%Q -> finished (Timer_new t0 0) now = true.
Proof. unfold finished, Timer_new; cbn [target]. rewrite Qle_bool_iff. lra. Qed.

Lemma provider_in_refresh_calls op os : provider_of op ∈ refresh_calls op os.
Proof.
  destruct op as [[]|]; cbn; [apply list_elem_of_here ..|].
  apply list_elem_of_further, list_elem_of_here.
Qed.

(** The outcomes of a call, one goal each: the timer is not due; it is due
    and the provider answers; it is due and the provider fails. *)
Ltac split_get_cpu os self :=
  let Hdue := fresh "Hdue" in
  let Hreply := fresh "Hreply" in
  destruct (finished (timer_cpu self) (clock os)) eqn:Hdue;
  [ destruct (cpu_percent_reply os) eqn:Hreply;
    [ rewrite (get_cpu_refresh os self _ Hdue Hreply)
    | rewrite (get_cpu_raise os self Hdue Hreply) ]
  | rewrite (get_cpu_cached os self Hdue) ].

Ltac split_get_percpu round os self :=
  let Hdue := fresh "Hdue" in
  let Hreply := fresh "Hreply" in
  destruct (finished (timer_percpu self) (clock os)) eqn:Hdue;
  [ destruct (cpu_times_percent_reply os) eqn:Hreply;
    [ rewrite (get_percpu_refresh round os self _ Hdue Hreply)
    | rewrite (get_percpu_raise round os self Hdue Hreply) ]
  | rewrite (get_percpu_cached round os self Hdue) ].

Ltac split_get_info os self :=
  let Hdue := fresh "Hdue" in
  let Hfirst := fresh "Hfirst" in
  let Hsecond := fresh "Hsecond" in
  destruct (finished (timer_cpu_info self) (clock os)) eqn:Hdue;
  [ destruct (cpu_freq_reply os 0) eqn:Hfirst;
    [ destruct (cpu_freq_reply os 1) eqn:Hsecond;
      [ rewrite (get_info_refresh os self _ _ Hdue Hfirst Hsecond)
      | rewrite (get_info_raise_second os self _ Hdue Hfirst Hsecond) ]
    | rewrite (get_info_raise_first os self Hdue Hfirst) ]
  | rewrite (get_info_cached os self Hdue) ].

Section Policy.

Variable round : float -> Z -> float.

Ltac split_perform op os self :=
  unfold perform, forget, get;
  destruct op as [[]|];
  [ split_get_percpu round os self | split_get_cpu os self
  | split_get_info os self ].

(** While its timer is not due an accessor asks nothing of the system and
    leaves the instance alone. *)
Lemma perform_cached op os self :
  finished (timer_of op self) (clock os) = false ->
  perform round op os self = (Return tt, self, []).
Proof.
  intros Hnot. unfold perform, forget, get. destruct op as [[]|]; cbn in Hnot.
  - rewrite get_percpu_cached by assumption. reflexivity.
  - rewrite get_cpu_cached by assumption. reflexivity.
  - rewrite get_info_cached by assumption. reflexivity.
Qed.

(** When the timer is due, the calls are those of one refresh. *)
Lemma perform_due_calls op os self :
  finished (timer_of op self) (clock os) = true ->
  calls (perform round op os self) = refresh_calls op os.
Proof.
  intros Hyes. split_perform op os self; cbn in Hyes; try congruence;
    cbn; try reflexivity.
  all: unfold refresh_calls; rewrite Hfirst; reflexivity.
Qed.

(** A call that raises found its timer due and leaves it as it was. *)
Lemma perform_raise op os self :
  returned (perform round op os self) = Raise ->
  finished (timer_of op self) (clock os) = true /\
  timer_of op (after (perform round op os self)) = timer_of op self.
Proof.
  split_perform op os self; cbn; intros; try discriminate; auto.
Qed.

(** The timer of an accessor after a call: untouched, or set from the clock
    by a call that returned. *)
Lemma perform_timer op os self :
  timer_of op (after (perform round op os self)) = timer_of op self \/
  (returned (perform round op os self) = Return tt /\
   finished (timer_of op self) (clock os) = true /\
   timer_of op (after (perform round op os self)) =
     Timer_new (clock os) (cached_time self)).
Proof.
  split_perform op os self; cbn; auto.
  destruct (percpu_dicts round l); cbn; auto.
Qed.

(** An accessor leaves the timers of the two others, and the interval,
    alone. *)
Lemma perform_other_timer op op' os self :
  op <> op' ->
  timer_of op' (after (perform round op os self)) = timer_of op' self.
Proof.
  intros Hne. split_perform op os self; destruct op' as [[]|]; cbn;
    try congruence; try reflexivity.
  all: destruct (percpu_dicts round l); reflexivity.
Qed.

Lemma perform_cached_time op os self :
  cached_time (after (perform round op os self)) = cached_time self.
Proof.
  split_perform op os self; cbn; try reflexivity.
  destruct (percpu_dicts round l); reflexivity.
Qed.

Lemma run_snoc script step self :
  run round (script ++ [step]) self =
    after (perform round step.1 step.2 (run round script self)).
Proof. unfold run. rewrite foldl_snoc. reflexivity. Qed.

Lemma run_other_timer op script : forall self,
  (forall step, step ∈ script -> step.1 <> op) ->
  timer_of op (run round script self) = timer_of op self.
Proof.
  induction script as [|step script IH]; intros self Hother; [reflexivity|].
  change (run round (step :: script) self)
    with (run round script (after (perform round step.1 step.2 self))).
  rewrite IH.
  - apply perform_other_timer, Hother, list_elem_of_here.
  - intros step' Hin. apply Hother, list_elem_of_further, Hin.
Qed.

(** C4.  Whatever the accessor and the replies of the system, the timer of
    the accessor after the call is either the one before it, or the clock
    plus the interval, set by a call that found the timer due and returned.
    A call that raises leaves the timer as it was: it is due at every later
    reading of the clock, and the next call asks the provider again. *)
Theorem timer_reset_only_on_success op os self :
  (timer_of op (after (perform round op os self)) = timer_of op self \/
   (returned (perform round op os self) = Return tt /\
    finished (timer_of op self) (clock os) = true /\
    timer_of op (after (perform round op os self)) =
      Timer_new (clock os) (cached_time self))) /\
  (returned (perform round op os self) = Raise ->
   timer_of op (after (perform round op os self)) = timer_of op self /\
   forall os', (clock os <= clock os')%Q ->
     finished (timer_of op (after (perform round op os self))) (clock os') = true /\
     provider_of op ∈
       calls (perform round op os' (after (perform round op os self)))).
Proof.
  split; [apply perform_timer|].
  intros Hraise. destruct (perform_raise op os self Hraise) as [Hdue Hsame].
  split; [assumption|]. intros os' Hlater.
  assert (finished (timer_of op (after (perform round op os self))) (clock os')
          = true) as Hdue'.
  { rewrite Hsame. apply finished_later with (clock os); assumption. }
  split; [assumption|].
  rewrite perform_due_calls by assumption. apply provider_in_refresh_calls.
Qed.

End Policy.

Lemma timer_reset_only_on_success_witness :
  returned (perform round_example (Get false) (os_failing 0) (__init__ 0 1)) =
    Raise /\
  (timer_of (Get false)
     (after (perform round_example (Get false) (os_failing 0) (__init__ 0 1))) =
   timer_of (Get false) (__init__ 0 1) /\
   forall os', (clock (os_failing 0) <= clock os')%Q ->
     finished
       (timer_of (Get false)
          (after (perform round_example (Get false) (os_failing 0)
                    (__init__ 0 1))))
       (clock os') = true /\
     provider_of (Get false) ∈
       calls (perform round_example (Get false) os'
                (after (perform round_example (Get false) (os_failing 0)
                          (__init__ 0 1))))).
Proof.
  split; [reflexivity|].
  apply (timer_reset_only_on_success round_example (Get false) (os_failing 0)
           (__init__ 0 1)).
  reflexivity.
Defined.

(** * Construction *)

Section ColdStart.

Variable round : float -> Z -> float.

(** C5, as the code has it.  On an instance built at [t0], with whatever
    interval, the first call of an accessor (calls of the two others may
    come before it) finds its timer due at every reading of the clock from
    [t0] on, and makes the calls of one refresh: one query of
    [psutil.cpu_percent] for the aggregate, one of
    [psutil.cpu_times_percent] for the cores, and for [get_info] one read of
    /proc/cpuinfo and two queries of [psutil.cpu_freq] (one when the first
    fails). *)
Theorem first_call_refreshes t0 c op os script :
  (t0 <= clock os)%Q ->
  (forall step, step ∈ script -> step.1 <> op) ->
  finished (timer_of op (run round script (__init__ t0 c))) (clock os) = true /\
  calls (perform round op os (run round script (__init__ t0 c))) =
    refresh_calls op os.
Proof.
  intros Hclock Hfirst.
  assert (finished (timer_of op (run round script (__init__ t0 c))) (clock os)
          = true) as Hdue.
  { rewrite run_other_timer by assumption.
    destruct op as [[]|]; apply finished_Timer_new_0; assumption. }
  split; [assumption|]. apply perform_due_calls; assumption.
Qed.

End ColdStart.

Lemma first_call_refreshes_witness :
  finished
    (timer_of GetInfo
       (run round_example [(Get true, os_example 0)] (__init__ 0 5)))
    (clock (os_example (1 # 2))) = true /\
  calls (perform round_example GetInfo (os_example (1 # 2))
           (run round_example [(Get true, os_example 0)] (__init__ 0 5))) =
    refresh_calls GetInfo (os_example (1 # 2)).
Proof.
  apply (first_call_refreshes round_example 0 5 GetInfo (os_example (1 # 2))
           [(Get true, os_example 0)]).
  - discriminate.
  - intros step Hin. apply list_elem_of_singleton in Hin. subst step.
    discriminate.
Defined.

(** C5, as stated, fails on [get_info]: its first call reads /proc/cpuinfo
    and queries [psutil.cpu_freq] twice. *)
Lemma first_get_info_calls_thrice :
  calls (get_info (os_example 0) (__init__ 0 1)) =
    [open_proc_cpuinfo; psutil_cpu_freq; psutil_cpu_freq] /\
  length (calls (get_info (os_example 0) (__init__ 0 1))) <> 1%nat /\
  length (filter (eq psutil_cpu_freq)
            (calls (get_info (os_example 0) (__init__ 0 1)))) = 2%nat.
Proof. repeat split. discriminate. Qed.

(** * A refresh that fails *)

Section FailedRefresh.

Variable round : float -> Z -> float.

(** C3, as the code has it.  When the call raises: the aggregate accessor
    leaves the whole instance as it was; the per-core accessor leaves the
    list empty (it empties it before it asks the provider), so never a part
    of a list; [get_info] has stored [cpu_name] already; it has stored the
    current frequency of the first query under [cpu_hz_current] when it is
    the second frequency query that failed, and has left [cpu_hz_current]
    as it was when the first one failed; every other entry of the mapping,
    [cpu_hz] among them, is as it was. *)
Theorem failed_refresh_state os self :
  (returned (__get_cpu os self) = Raise ->
   after (__get_cpu os self) = self) /\
  (returned (__get_percpu round os self) = Raise ->
   after (__get_percpu round os self) = set_percpu_percent [] self) /\
  (returned (get_info os self) = Raise ->
   exists info,
     after (get_info os self) = set_cpu_info info self /\
     info !! "cpu_name" = Some (VStr (stored_name os)) /\
     info !! "cpu_hz" = cpu_info self !! "cpu_hz" /\
     (forall k, k <> "cpu_name"%string -> k <> "cpu_hz_current"%string ->
        info !! k = cpu_info self !! k) /\
     (cpu_freq_reply os 0 = None ->
      info !! "cpu_hz_current" = cpu_info self !! "cpu_hz_current") /\
     (forall freq, cpu_freq_reply os 0 = Some freq ->
        cpu_freq_reply os 1 = None /\
        info !! "cpu_hz_current" = Some (VFloat (current freq)))).
Proof.
  split; [|split].
  - split_get_cpu os self; cbn; intros; try discriminate; reflexivity.
  - split_get_percpu round os self; cbn; intros; try discriminate; reflexivity.
  - split_get_info os self; cbn [returned after fst snd]; intros Hraise;
      try discriminate.
    + eexists. split; [reflexivity|].
      split; [by rewrite lookup_insert_ne, lookup_insert_eq|].
      split; [by rewrite !lookup_insert_ne|].
      split; [intros k Hk1 Hk2; by rewrite !lookup_insert_ne|].
      split; [discriminate|].
      intros freq [= <-]. split; [reflexivity | apply lookup_insert_eq].
    + eexists. split; [reflexivity|].
      split; [apply lookup_insert_eq|].
      split; [by rewrite lookup_insert_ne|].
      split; [intros k Hk1 Hk2; by rewrite lookup_insert_ne|].
      split; [intros _; by rewrite lookup_insert_ne | discriminate].
Qed.

End FailedRefresh.

Lemma failed_refresh_state_witness :
  (returned (__get_cpu (os_failing 0) (__init__ 0 1)) = Raise /\
   after (__get_cpu (os_failing 0) (__init__ 0 1)) = __init__ 0 1) /\
  (returned (__get_percpu round_example (os_failing 0) (__init__ 0 1)) = Raise /\
   after (__get_percpu round_example (os_failing 0) (__init__ 0 1)) =
     set_percpu_percent [] (__init__ 0 1)) /\
  (returned (get_info (os_failing 0) (__init__ 0 1)) = Raise /\
   cpu_freq_reply (os_failing 0) 0 = None /\
   exists info,
     after (get_info (os_failing 0) (__init__ 0 1)) =
       set_cpu_info info (__init__ 0 1) /\
     info !! "cpu_name" = Some (VStr (stored_name (os_failing 0))) /\
     info !! "cpu_hz_current" = cpu_info (__init__ 0 1) !! "cpu_hz_current") /\
  (returned (get_info (os_second_freq_failing 0) (__init__ 0 1)) = Raise /\
   cpu_freq_reply (os_second_freq_failing 0) 1 = None /\
   exists info,
     after (get_info (os_second_freq_failing 0) (__init__ 0 1)) =
       set_cpu_info info (__init__ 0 1) /\
     info !! "cpu_name" = Some (VStr (stored_name (os_second_freq_failing 0))) /\
     info !! "cpu_hz_current" = Some (VFloat 2000) /\
     info !! "cpu_hz" = cpu_info (__init__ 0 1) !! "cpu_hz").
Proof.
  destruct (failed_refresh_state round_example (os_failing 0) (__init__ 0 1))
    as (Hcpu & Hpercpu & Hinfo).
  destruct (failed_refresh_state round_example (os_second_freq_failing 0)
              (__init__ 0 1)) as (_ & _ & Hinfo').
  split; [|split; [|split]].
  - split; [reflexivity|]. apply Hcpu. reflexivity.
  - split; [reflexivity|]. apply Hpercpu. reflexivity.
  - split; [reflexivity|]. split; [reflexivity|].
    destruct (Hinfo eq_refl) as (info & Hafter & Hname & _ & _ & Hfirst & _).
    exists info. split; [assumption|]. split; [assumption|].
    apply Hfirst. reflexivity.
  - split; [reflexivity|].
    destruct (Hinfo' eq_refl) as (info & Hafter & Hname & Hmax & _ & _ & Hsecond).
    destruct (Hsecond _ eq_refl) as [Hnone Hcurrent].
    split; [exact Hnone|].
    exists info. repeat (split; [assumption|]). assumption.
Defined.

(** C3, as stated, fails on the per-core list and on the mapping.  After a
    refresh that stored two cores, a call whose provider fails leaves the
    list empty; and on a new instance a call of [get_info] whose frequency
    query fails leaves [cpu_name] in a mapping that was empty. *)
Lemma failed_refresh_changes_value :
  (let self := after (__get_percpu round_example (os_example 0) (__init__ 0 1)) in
   let o := __get_percpu round_example (os_failing 2) self in
   returned o = Raise /\
   length (percpu_percent self) = 2%nat /\
   percpu_percent (after o) = [] /\
   percpu_percent (after o) <> percpu_percent self) /\
  (let self := __init__ 0 1 in
   let o := get_info (os_failing 0) self in
   returned o = Raise /\
   cpu_info self !! "cpu_name" = None /\
   cpu_info (after o) !! "cpu_name" = Some (VStr "CPU") /\
   cpu_info (after o) <> cpu_info self).
Proof.
  split; cbv zeta.
  - split; [reflexivity|]. split; [reflexivity|]. split; [reflexivity|].
    intros Heq. apply (f_equal length) in Heq. discriminate Heq.
  - split; [reflexivity|]. split; [reflexivity|]. split; [reflexivity|].
    intros Heq. apply (f_equal (fun m => m !! "cpu_name")) in Heq.
    discriminate Heq.
Qed.

(** * The name and the frequencies of [get_info] *)

(** C9.  In a call of [get_info] that finds its timer due: whatever the
    frequency queries do, the name stored under [cpu_name] is the parsed
    one, or ["CPU"] when the source of the name fails; the call raises if
    and only if one of the two frequency queries fails, so never because of
    the name. *)
Theorem get_info_name_and_frequency os self :
  finished (timer_cpu_info self) (clock os) = true ->
  cpu_info (after (get_info os self)) !! "cpu_name" =
    Some (VStr (stored_name os)) /\
  (cpuinfo_name (proc_cpuinfo os) = None ->
   cpu_info (after (get_info os self)) !! "cpu_name" = Some (VStr "CPU")) /\
  (returned (get_info os self) = Raise <->
   cpu_freq_reply os 0 = None \/ cpu_freq_reply os 1 = None).
Proof.
  intros Hdue.
  assert (cpu_info (after (get_info os self)) !! "cpu_name" =
            Some (VStr (stored_name os))) as Hname.
  { split_get_info os self; try congruence; cbn [after cpu_info set_cpu_info
      set_timer_cpu_info fst snd].
    - do 2 (rewrite lookup_insert_ne by done). apply lookup_insert_eq.
    - rewrite lookup_insert_ne by done. apply lookup_insert_eq.
    - apply lookup_insert_eq. }
  split; [assumption|]. split.
  - intros Hfail. rewrite Hname. unfold stored_name. rewrite Hfail. reflexivity.
  - split_get_info os self; try congruence; cbn [returned fst]; split;
      try discriminate; auto.
    intros [H|H]; discriminate H.
Qed.

Lemma get_info_name_and_frequency_witness :
  cpu_info (after (get_info (os_failing 0) (__init__ 0 1))) !! "cpu_name" =
    Some (VStr (stored_name (os_failing 0))) /\
  (cpuinfo_name (proc_cpuinfo (os_failing 0)) = None ->
   cpu_info (after (get_info (os_failing 0) (__init__ 0 1))) !! "cpu_name" =
     Some (VStr "CPU")) /\
  (returned (get_info (os_failing 0) (__init__ 0 1)) = Raise <->
   cpu_freq_reply (os_failing 0) 0 = None \/
   cpu_freq_reply (os_failing 0) 1 = None).
Proof.
  apply (get_info_name_and_frequency (os_failing 0) (__init__ 0 1)).
  reflexivity.
Defined.

(** * The keys of the mapping of [get_info] *)

Section InfoKeys.

Variable round : float -> Z -> float.

(** The accessors store under the three keys only. *)
Lemma perform_info_keys op os self :
  dom (cpu_info self) ⊆ info_keys ->
  dom (cpu_info (after (perform round op os self))) ⊆ info_keys.
Proof.
  intros Hsub. unfold perform, forget, get. destruct op as [[]|].
  - split_get_percpu round os self; cbn; try assumption.
    destruct (percpu_dicts round l); assumption.
  - split_get_cpu os self; assumption.
  - split_get_info os self; cbn; rewrite ?dom_insert_L; unfold info_keys in *;
      clear -Hsub; set_solver.
Qed.

Lemma run_info_keys script : forall self,
  dom (cpu_info self) ⊆ info_keys ->
  dom (cpu_info (run round script self)) ⊆ info_keys.
Proof.
  induction script as [|step script IH]; intros self Hsub; [assumption|].
  change (run round (step :: script) self)
    with (run round script (after (perform round step.1 step.2 self))).
  apply IH, perform_info_keys, Hsub.
Qed.

Lemma info_filled_insert_name info name :
  info_filled info -> info_filled (<["cpu_name" := VStr name]> info).
Proof.
  intros (Hdom & Hname & Hcurrent & Hmax). unfold info_filled.
  rewrite dom_insert_L, Hdom. split; [unfold info_keys; set_solver|].
  rewrite lookup_insert_eq, !lookup_insert_ne by done. eauto.
Qed.

Lemma info_filled_insert_current info x :
  info_filled info -> info_filled (<["cpu_hz_current" := VFloat x]> info).
Proof.
  intros (Hdom & Hname & Hcurrent & Hmax). unfold info_filled.
  rewrite dom_insert_L, Hdom. split; [unfold info_keys; set_solver|].
  rewrite lookup_insert_eq, !lookup_insert_ne by done. eauto.
Qed.

Lemma info_filled_insert_max info x :
  info_filled info -> info_filled (<["cpu_hz" := VFloat x]> info).
Proof.
  intros (Hdom & Hname & Hcurrent & Hmax). unfold info_filled.
  rewrite dom_insert_L, Hdom. split; [unfold info_keys; set_solver|].
  rewrite lookup_insert_eq, !lookup_insert_ne by done. eauto.
Qed.

(** Once the three keys are there, every call keeps them there. *)
Lemma perform_info_filled op os self :
  info_filled (cpu_info self) ->
  info_filled (cpu_info (after (perform round op os self))).
Proof.
  intros Hfilled. unfold perform, forget, get. destruct op as [[]|].
  - split_get_percpu round os self; cbn; try assumption.
    destruct (percpu_dicts round l); assumption.
  - split_get_cpu os self; assumption.
  - split_get_info os self; cbn; try assumption;
      auto using info_filled_insert_name, info_filled_insert_current,
        info_filled_insert_max.
Qed.

Lemma run_info_filled script : forall self,
  info_filled (cpu_info self) -> info_filled (cpu_info (run round script self)).
Proof.
  induction script as [|step script IH]; intros self Hfilled; [assumption|].
  change (run round (step :: script) self)
    with (run round script (after (perform round step.1 step.2 self))).
  apply IH, perform_info_filled, Hfilled.
Qed.

(** What [get_info] returns is the mapping it leaves in the instance. *)
Lemma get_info_returns_stored os self info :
  returned (get_info os self) = Return info ->
  info = cpu_info (after (get_info os self)).
Proof.
  split_get_info os self; cbn; intros Hret; try discriminate;
    by injection Hret as <-.
Qed.

(** C8, as the code has it.  On an instance built by [__init__] and used
    through its accessors, a call of [get_info] that refreshes and returns
    gives a mapping with exactly the keys [cpu_name], [cpu_hz_current] and
    [cpu_hz]: the name as a string, the current frequency of the first
    query, the maximal frequency of the second.  Every mapping [get_info]
    returns later has exactly these keys, a string under the first and a
    float under the two others. *)
Theorem get_info_mapping t0 c script os info :
  finished (timer_cpu_info (run round script (__init__ t0 c))) (clock os) = true ->
  returned (get_info os (run round script (__init__ t0 c))) = Return info ->
  dom info = info_keys /\
  info !! "cpu_name" = Some (VStr (stored_name os)) /\
  (exists freq, cpu_freq_reply os 0 = Some freq /\
     info !! "cpu_hz_current" = Some (VFloat (current freq))) /\
  (exists freq, cpu_freq_reply os 1 = Some freq /\
     info !! "cpu_hz" = Some (VFloat (max freq))) /\
  forall script' os' info',
    returned
      (get_info os'
         (run round script'
            (after (get_info os (run round script (__init__ t0 c)))))) =
      Return info' ->
    info_filled info'.
Proof.
  intros Hdue Hret.
  pose proof (run_info_keys script (__init__ t0 c)) as Hkeys.
  set (self := run round script (__init__ t0 c)) in *.
  assert (dom (cpu_info self) ⊆ info_keys) as Hsub.
  { apply Hkeys. cbn. rewrite dom_empty_L. set_solver. }
  clear Hkeys.
  assert (dom info = info_keys /\
          info !! "cpu_name" = Some (VStr (stored_name os)) /\
          (exists freq, cpu_freq_reply os 0 = Some freq /\
             info !! "cpu_hz_current" = Some (VFloat (current freq))) /\
          (exists freq, cpu_freq_reply os 1 = Some freq /\
             info !! "cpu_hz" = Some (VFloat (max freq)))) as Hinfo.
  { revert Hret. split_get_info os self; try congruence; cbn [returned fst];
      intros Hret; try discriminate. injection Hret as <-.
    split; [rewrite !dom_insert_L; unfold info_keys in *; clear -Hsub;
            set_solver|].
    split; [do 2 (rewrite lookup_insert_ne by done); apply lookup_insert_eq|].
    split; eexists; (split; [reflexivity|]).
    - rewrite lookup_insert_ne by done. apply lookup_insert_eq.
    - apply lookup_insert_eq. }
  destruct Hinfo as (Hdom & Hname & Hcurrent & Hmax).
  repeat (split; [assumption|]).
  intros script' os' info' Hret'.
  rewrite (get_info_returns_stored _ _ _ Hret').
  change (info_filled
            (cpu_info (after (perform round GetInfo os'
               (run round script' (after (get_info os self))))))).
  apply perform_info_filled, run_info_filled.
  rewrite <- (get_info_returns_stored _ _ _ Hret).
  destruct Hcurrent as (? & _ & ?), Hmax as (? & _ & ?).
  unfold info_filled. eauto 10.
Qed.

End InfoKeys.

Lemma get_info_mapping_witness :
  dom (cpu_info (after (get_info (os_example 0) (__init__ 0 1)))) = info_keys /\
  cpu_info (after (get_info (os_example 0) (__init__ 0 1))) !! "cpu_name" =
    Some (VStr (stored_name (os_example 0))).
Proof.
  destruct (get_info_mapping round_example 0 1 [] (os_example 0)
              (cpu_info (after (get_info (os_example 0) (__init__ 0 1))))
              eq_refl eq_refl) as (Hdom & Hname & _).
  split; assumption.
Defined.

(** C8, as stated, fails on the third key: the maximal frequency is stored
    under [cpu_hz], and there is no key [cpu_hz_max]. *)
Lemma get_info_has_no_cpu_hz_max :
  exists info,
    returned (get_info (os_example 0) (__init__ 0 1)) = Return info /\
    info !! "cpu_hz_max" = None /\
    info !! "cpu_hz" = Some (VFloat 3600) /\
    dom info <> {[ "cpu_name"; "cpu_hz_current"; "cpu_hz_max" ]}.
Proof.
  eexists. split; [reflexivity|]. split; [reflexivity|]. split; [reflexivity|].
  intros Heq.
  assert ("cpu_hz_max" ∈
          ({[ "cpu_name"; "cpu_hz_current"; "cpu_hz_max" ]} : gset string))
    as Hin by set_solver.
  rewrite <- Heq in Hin. apply elem_of_dom in Hin as [v Hv]. discriminate Hv.
Qed.

(** * The interval *)

Section Interval.

Variable round : float -> Z -> float.

Lemma not_finished_before_target now c now' :
  (now' < now + c)%Q -> finished (Timer_new now c) now' = false.
Proof.
  intros Hlt. unfold finished, Timer_new; cbn [target].
  destruct (Qle_bool (now + c) now') eqn:Hle; [|reflexivity].
  apply Qle_bool_iff in Hle. lra.
Qed.

(** Where the policy holds: between a reset of the timer of an accessor at
    [t0] and [t0] plus the interval, two calls of the accessor ask nothing of
    the system and leave the instance, hence the value they return, alone. *)
Lemma calls_within_interval_are_cached op t0 os1 os2 self :
  timer_of op self = Timer_new t0 (cached_time self) ->
  (clock os1 < t0 + cached_time self)%Q ->
  (clock os2 < t0 + cached_time self)%Q ->
  perform round op os1 self = (Return tt, self, []) /\
  perform round op os2 (after (perform round op os1 self)) =
    (Return tt, self, []).
Proof.
  intros Htimer H1 H2.
  assert (perform round op os1 self = (Return tt, self, [])) as Hfirst.
  { apply perform_cached. rewrite Htimer.
    apply not_finished_before_target; assumption. }
  split; [assumption|]. rewrite Hfirst. cbn [after fst snd].
  apply perform_cached. rewrite Htimer.
  apply not_finished_before_target; assumption.
Qed.

Lemma run_cached_time script : forall self,
  cached_time (run round script self) = cached_time self.
Proof.
  induction script as [|step script IH]; intros self; [reflexivity|].
  change (run round (step :: script) self)
    with (run round script (after (perform round step.1 step.2 self))).
  rewrite IH. apply perform_cached_time.
Qed.

(** C1, where the code departs from it.  A per-core refresh whose provider
    answers with no record returns, and stores, the empty list, and leaves
    the timer due: the two calls that follow within the interval ask the
    provider again, each of them. *)
Theorem percpu_refresh_without_record_is_repeated :
  let o0 := __get_percpu round (os_no_core 0) (__init__ 0 1) in
  let o1 := __get_percpu round (os_no_core (1 # 4)) (after o0) in
  let o2 := __get_percpu round (os_no_core (1 # 2)) (after o1) in
  returned o0 = Return [] /\
  calls o0 = [psutil_cpu_times_percent] /\
  timer_percpu (after o0) = timer_percpu (__init__ 0 1) /\
  calls o1 = [psutil_cpu_times_percent] /\
  calls o2 = [psutil_cpu_times_percent].
Proof. cbv zeta. repeat split. Qed.

(** C2, where the code departs from it.  Built with an interval of 5, the
    instance has an interval of 1: [__init__] stores the literal, not its
    argument, and no accessor assigns the field afterwards. *)
Theorem interval_argument_is_ignored script :
  cached_time (run round script (__init__ 0 5)) = 1%Q /\
  ~ (cached_time (run round script (__init__ 0 5)) == 5)%Q /\
  timer_cpu (after (__get_cpu (os_example 0) (__init__ 0 5))) = Timer_new 0 1.
Proof.
  rewrite run_cached_time. cbn [cached_time __init__].
  split; [reflexivity|]. split; [discriminate | reflexivity].
Qed.

End Interval.

(** * The model, run *)

(** The parse of the name keeps what lies between the colon and the last
    two characters of the fifth line. *)
Example cpuinfo_name_example :
  cpuinfo_name (proc_cpuinfo (os_example 0)) =
    Some "Intel(R) Core(TM) i7-8550U CPU @ 1.80GH"%string.
Proof. reflexivity. Qed.

(** An interval of one second: a call at 0 asks the provider, a call at
    0.3 does not and returns the same value, a call at 1.2 asks again. *)
Example aggregate_timeline :
  let o0 := __get_cpu (os_example 0) (__init__ 0 1) in
  let o1 := __get_cpu (os_example (3 # 10)) (after o0) in
  let o2 := __get_cpu (os_example (12 # 10)) (after o1) in
  calls o0 = [psutil_cpu_percent] /\ returned o0 = Return (VFloat 12.5) /\
  calls o1 = [] /\ returned o1 = Return (VFloat 12.5) /\
  calls o2 = [psutil_cpu_percent].
Proof. cbv zeta. repeat split. Qed.

(** The first core of the example has no [nice], the second one has. *)
Example percpu_sample_example :
  let o := __get_percpu round_example (os_example 0) (__init__ 0 1) in
  exists cpu0 cpu1,
    returned o = Return [cpu0; cpu1] /\
    cpu0 !! "total" = Some (VFloat 30) /\ cpu0 !! "nice" = None /\
    cpu1 !! "cpu_number" = Some (VInt 1) /\
    cpu1 !! "nice" = Some (VFloat 0.5).
Proof. cbv zeta. do 2 eexists. repeat split. Qed.

(** * The three metrics, side by side *)

Section Independence.

Variable round : float -> Z -> float.

(** Each accessor owns one value and one timer: a call, whatever its
    outcome, leaves the values and the timers of the two other metrics, and
    the interval, as they were. *)
Theorem accessor_touches_own_metric_only os self :
  (let s := after (__get_cpu os self) in
   cpu_info s = cpu_info self /\ timer_cpu_info s = timer_cpu_info self /\
   percpu_percent s = percpu_percent self /\
   timer_percpu s = timer_percpu self /\ cached_time s = cached_time self) /\
  (let s := after (__get_percpu round os self) in
   cpu_info s = cpu_info self /\ timer_cpu_info s = timer_cpu_info self /\
   cpu_percent s = cpu_percent self /\
   timer_cpu s = timer_cpu self /\ cached_time s = cached_time self) /\
  (let s := after (get_info os self) in
   cpu_percent s = cpu_percent self /\ timer_cpu s = timer_cpu self /\
   percpu_percent s = percpu_percent self /\
   timer_percpu s = timer_percpu self /\ cached_time s = cached_time self).
Proof.
  split; [|split]; cbv zeta.
  - split_get_cpu os self; repeat split.
  - split_get_percpu round os self; try (repeat split; fail).
    destruct (percpu_dicts round l); repeat split.
  - split_get_info os self; repeat split.
Qed.

(** The per-core timer is reset by the loop, once per record: a refresh
    that gets no record from the provider returns and stores the empty list
    and leaves the timer due, while one record is enough to reset it. *)
Theorem percpu_timer_reset_needs_a_record os self records :
  finished (timer_percpu self) (clock os) = true ->
  cpu_times_percent_reply os = Some records ->
  returned (__get_percpu round os self) = Return (percpu_dicts round records) /\
  timer_percpu (after (__get_percpu round os self)) =
    match records with
    | [] => timer_percpu self
    | _ :: _ => Timer_new (clock os) (cached_time self)
    end /\
  (records = [] ->
   forall os', (clock os <= clock os')%Q ->
     calls (__get_percpu round os' (after (__get_percpu round os self))) =
       [psutil_cpu_times_percent]).
Proof.
  intros Hdue Hrecords.
  rewrite (get_percpu_refresh round os self records Hdue Hrecords).
  cbn [returned after fst snd]. split; [reflexivity|]. split.
  - destruct records; reflexivity.
  - intros -> os' Hlater. cbn [percpu_dicts imap after_loop].
    assert (finished (timer_percpu (set_percpu_percent [] self)) (clock os')
            = true) as Hdue' by (apply finished_later with (clock os); assumption).
    destruct (cpu_times_percent_reply os') as [records'|] eqn:Hreply'.
    + rewrite (get_percpu_refresh round os' _ records' Hdue' Hreply').
      reflexivity.
    + rewrite (get_percpu_raise round os' _ Hdue' Hreply'). reflexivity.
Qed.

End Independence.

Lemma percpu_timer_reset_needs_a_record_witness :
  returned (__get_percpu round_example (os_no_core 0) (__init__ 0 1)) =
    Return (percpu_dicts round_example []) /\
  timer_percpu (after (__get_percpu round_example (os_no_core 0) (__init__ 0 1))) =
    timer_percpu (__init__ 0 1) /\
  calls (__get_percpu round_example (os_no_core (1 # 2))
           (after (__get_percpu round_example (os_no_core 0) (__init__ 0 1)))) =
    [psutil_cpu_times_percent].
Proof.
  destruct (percpu_timer_reset_needs_a_record round_example (os_no_core 0)
              (__init__ 0 1) [] eq_refl eq_refl) as (Hret & Htimer & Hagain).
  split; [exact Hret|]. split; [exact Htimer|].
  apply (Hagain eq_refl (os_no_core (1 # 2))). discriminate.
Defined.

(** * Between two samples *)

(** The outcomes of a call of any accessor, one goal each. *)
Ltac split_call round op os self :=
  unfold perform, forget, get;
  destruct op as [[]|];
  [ split_get_percpu round os self | split_get_cpu os self
  | split_get_info os self ].

Section Spacing.

Variable round : float -> Z -> float.

Lemma perform_calls_due op os self :
  calls (perform round op os self) <> [] ->
  finished (timer_of op self) (clock os) = true.
Proof.
  intros Hcalls.
  destruct (finished (timer_of op self) (clock os)) eqn:Hdue; [reflexivity|].
  rewrite perform_cached in Hcalls by assumption. by destruct Hcalls.
Qed.

Lemma refresh_calls_not_nil op os : refresh_calls op os <> [].
Proof. destruct op as [[]|]; discriminate. Qed.

(** Once the timer of an accessor has been set at [t0], a call asks the
    system if and only if the clock has reached [t0] plus the interval;
    before that it returns with the instance untouched. *)
Theorem refresh_iff_interval_elapsed op t0 os self :
  timer_of op self = Timer_new t0 (cached_time self) ->
  (calls (perform round op os self) <> [] <->
   (t0 + cached_time self <= clock os)%Q) /\
  ((t0 + cached_time self <= clock os)%Q ->
   calls (perform round op os self) = refresh_calls op os) /\
  ((clock os < t0 + cached_time self)%Q ->
   perform round op os self = (Return tt, self, [])).
Proof.
  intros Htimer.
  assert ((t0 + cached_time self <= clock os)%Q ->
          finished (timer_of op self) (clock os) = true) as Hyes.
  { intros Hle. rewrite Htimer. unfold finished, Timer_new; cbn [target].
    by apply Qle_bool_iff. }
  assert ((clock os < t0 + cached_time self)%Q ->
          finished (timer_of op self) (clock os) = false) as Hno.
  { intros Hlt. rewrite Htimer. by apply not_finished_before_target. }
  split; [split|split].
  - intros Hcalls. apply perform_calls_due in Hcalls.
    rewrite Htimer in Hcalls. by apply Qle_bool_iff in Hcalls.
  - intros Hle. rewrite perform_due_calls by auto. apply refresh_calls_not_nil.
  - intros Hle. apply perform_due_calls; auto.
  - intros Hlt. apply perform_cached; auto.
Qed.

(** A timer only moves forward, as long as the interval is not negative. *)
Lemma perform_target_monotone op op' os self :
  (0 <= cached_time self)%Q ->
  (target (timer_of op' self) <=
   target (timer_of op' (after (perform round op os self))))%Q.
Proof.
  intros Hinterval. destruct (decide (op = op')) as [->|Hne].
  - destruct (perform_timer round op' os self) as [->|(_ & Hdue & ->)];
      [apply Qle_refl|].
    unfold finished in Hdue. apply Qle_bool_iff in Hdue.
    unfold Timer_new; cbn [target]. lra.
  - rewrite perform_other_timer by assumption. apply Qle_refl.
Qed.

Lemma run_target_monotone op script : forall self,
  (0 <= cached_time self)%Q ->
  (target (timer_of op self) <= target (timer_of op (run round script self)))%Q.
Proof.
  induction script as [|step script IH]; intros self Hinterval; [apply Qle_refl|].
  change (run round (step :: script) self)
    with (run round script (after (perform round step.1 step.2 self))).
  eapply Qle_trans; [apply perform_target_monotone; eassumption|].
  apply IH. by rewrite perform_cached_time.
Qed.

(** A refresh that returns resets the timer, but for the per-core refresh
    without a record. *)
Lemma perform_refresh_timer op os self :
  calls (perform round op os self) <> [] ->
  returned (perform round op os self) = Return tt ->
  (op = Get true -> cpu_times_percent_reply os <> Some []) ->
  timer_of op (after (perform round op os self)) =
    Timer_new (clock os) (cached_time self).
Proof.
  split_call round op os self; cbn;
    intros Hcalls Hret Hrecords; try discriminate; try reflexivity;
    try (by destruct Hcalls).
  destruct l; [by destruct Hrecords|reflexivity].
Qed.

(** The rate limit, over any interleaving of calls and whatever the clock
    does in between: after an accessor has sampled the system at [t] (a
    per-core sample with at least one record), no call of that accessor
    asks the system again before [t] plus the interval. *)
Theorem samples_are_an_interval_apart op os self script os' :
  (0 <= cached_time self)%Q ->
  calls (perform round op os self) <> [] ->
  returned (perform round op os self) = Return tt ->
  (op = Get true -> cpu_times_percent_reply os <> Some []) ->
  calls (perform round op os'
           (run round script (after (perform round op os self)))) <> [] ->
  (clock os + cached_time self <= clock os')%Q.
Proof.
  intros Hinterval Hcalls Hret Hrecords Hcalls'.
  pose proof (perform_refresh_timer op os self Hcalls Hret Hrecords) as Htimer.
  apply perform_calls_due in Hcalls'. unfold finished in Hcalls'.
  apply Qle_bool_iff in Hcalls'.
  eapply Qle_trans; [|exact Hcalls'].
  eapply Qle_trans; [|apply run_target_monotone].
  - rewrite Htimer. unfold Timer_new; cbn [target]. apply Qle_refl.
  - by rewrite perform_cached_time.
Qed.

End Spacing.

Lemma refresh_iff_interval_elapsed_witness :
  calls (perform round_example (Get false) (os_example (12 # 10))
           (after (__get_cpu (os_example 0) (__init__ 0 1)))) =
    refresh_calls (Get false) (os_example (12 # 10)) /\
  perform round_example (Get false) (os_example (3 # 10))
    (after (__get_cpu (os_example 0) (__init__ 0 1))) =
    (Return tt, after (__get_cpu (os_example 0) (__init__ 0 1)), []).
Proof.
  split.
  - apply (refresh_iff_interval_elapsed round_example (Get false) 0
             (os_example (12 # 10))
             (after (__get_cpu (os_example 0) (__init__ 0 1))) eq_refl).
    discriminate.
  - apply (refresh_iff_interval_elapsed round_example (Get false) 0
             (os_example (3 # 10))
             (after (__get_cpu (os_example 0) (__init__ 0 1))) eq_refl).
    reflexivity.
Defined.

Lemma samples_are_an_interval_apart_witness :
  (clock (os_example 0) + cached_time (__init__ 0 1) <= clock (os_example 2))%Q.
Proof.
  apply (samples_are_an_interval_apart round_example (Get false) (os_example 0)
           (__init__ 0 1) [(GetInfo, os_example (1 # 2))] (os_example 2)).
  - discriminate.
  - vm_compute. discriminate.
  - reflexivity.
  - discriminate.
  - vm_compute. discriminate.
Defined.

(** * What a call returns *)

Section Served.

Variable round : float -> Z -> float.

(** A call that returns gives the value that is in the instance when it
    returns: the accessors have no other source for their result. *)
Theorem accessor_returns_stored_value os self :
  (forall v, returned (__get_cpu os self) = Return v ->
     v = cpu_percent (after (__get_cpu os self))) /\
  (forall v, returned (__get_percpu round os self) = Return v ->
     v = percpu_percent (after (__get_percpu round os self))) /\
  (forall v, returned (get_info os self) = Return v ->
     v = cpu_info (after (get_info os self))).
Proof.
  split; [|split]; intros v.
  - split_get_cpu os self; cbn; intros Hret; try discriminate;
      by injection Hret as <-.
  - split_get_percpu round os self; cbn [returned after fst snd];
      intros Hret; try discriminate; injection Hret as <-;
      [|reflexivity].
    symmetry. apply percpu_percent_after_loop.
  - apply get_info_returns_stored.
Qed.

(** The value of a sample is served until the interval has passed: after a
    call that asked the system and returned [v] (for the cores, a [v] that
    is not empty), a call before the clock reaches the time of the sample
    plus the interval returns [v] again, asks nothing and leaves the
    instance alone, whatever the system would answer by then. *)
Theorem sample_is_served_within_interval os os' self :
  (clock os' < clock os + cached_time self)%Q ->
  (forall v, returned (__get_cpu os self) = Return v ->
     calls (__get_cpu os self) <> [] ->
     __get_cpu os' (after (__get_cpu os self)) =
       (Return v, after (__get_cpu os self), [])) /\
  (forall v, returned (__get_percpu round os self) = Return v ->
     calls (__get_percpu round os self) <> [] -> v <> [] ->
     __get_percpu round os' (after (__get_percpu round os self)) =
       (Return v, after (__get_percpu round os self), [])) /\
  (forall v, returned (get_info os self) = Return v ->
     calls (get_info os self) <> [] ->
     get_info os' (after (get_info os self)) =
       (Return v, after (get_info os self), [])).
Proof.
  intros Hwithin.
  pose proof (not_finished_before_target (clock os) (cached_time self)
                (clock os') Hwithin) as Hnot.
  split; [|split]; intros v.
  - split_get_cpu os self; cbn [returned calls after fst snd];
      intros Hret Hcalls; try discriminate; try (by destruct Hcalls).
    injection Hret as <-. by rewrite get_cpu_cached.
  - split_get_percpu round os self; cbn [returned calls after fst snd];
      intros Hret Hcalls Hv; try discriminate; try (by destruct Hcalls).
    injection Hret as <-.
    destruct (percpu_dicts round l) as [|cpu dicts]; [by destruct Hv|].
    by rewrite get_percpu_cached.
  - split_get_info os self; cbn [returned calls after fst snd];
      intros Hret Hcalls; try discriminate; try (by destruct Hcalls).
    injection Hret as <-. by rewrite get_info_cached.
Qed.

End Served.

Lemma accessor_returns_stored_value_witness :
  VFloat 12.5 = cpu_percent (after (__get_cpu (os_example 0) (__init__ 0 1))) /\
  percpu_dicts round_example records_example =
    percpu_percent
      (after (__get_percpu round_example (os_example 0) (__init__ 0 1))) /\
  cpu_info (after (get_info (os_example 0) (__init__ 0 1))) =
    cpu_info (after (get_info (os_example 0) (__init__ 0 1))).
Proof.
  destruct (accessor_returns_stored_value round_example (os_example 0)
              (__init__ 0 1)) as (Hcpu & Hpercpu & Hinfo).
  split; [|split].
  - apply Hcpu. reflexivity.
  - apply Hpercpu. reflexivity.
  - apply Hinfo. reflexivity.
Defined.

Lemma sample_is_served_within_interval_witness :
  __get_cpu (os_failing (3 # 10)) (after (__get_cpu (os_example 0) (__init__ 0 1))) =
    (Return (VFloat 12.5), after (__get_cpu (os_example 0) (__init__ 0 1)), []) /\
  __get_percpu round_example (os_failing (3 # 10))
    (after (__get_percpu round_example (os_example 0) (__init__ 0 1))) =
    (Return (percpu_dicts round_example records_example),
     after (__get_percpu round_example (os_example 0) (__init__ 0 1)), []) /\
  get_info (os_failing (3 # 10)) (after (get_info (os_example 0) (__init__ 0 1))) =
    (Return (cpu_info (after (get_info (os_example 0) (__init__ 0 1)))),
     after (get_info (os_example 0) (__init__ 0 1)), []).
Proof.
  destruct (sample_is_served_within_interval round_example (os_example 0)
              (os_failing (3 # 10)) (__init__ 0 1) eq_refl)
    as (Hcpu & Hpercpu & Hinfo).
  split; [|split].
  - apply Hcpu; [reflexivity | discriminate].
  - apply Hpercpu; [reflexivity | discriminate | discriminate].
  - apply Hinfo; [reflexivity | discriminate].
Defined.

(** * Calls of different accessors *)

(** A second call, on the instance another accessor left: the equations of
    the accessor apply with the tests the first split recorded. *)
Ltac again_get_cpu :=
  match goal with
  | Hd : finished (timer_cpu _) (clock ?os) = false
    |- context [__get_cpu ?os ?s] => rewrite (get_cpu_cached os s Hd)
  | Hd : finished (timer_cpu _) (clock ?os) = true,
    Hr : cpu_percent_reply ?os = Some ?x
    |- context [__get_cpu ?os ?s] => rewrite (get_cpu_refresh os s x Hd Hr)
  | Hd : finished (timer_cpu _) (clock ?os) = true,
    Hr : cpu_percent_reply ?os = None
    |- context [__get_cpu ?os ?s] => rewrite (get_cpu_raise os s Hd Hr)
  end.

Ltac again_get_percpu round :=
  match goal with
  | Hd : finished (timer_percpu _) (clock ?os) = false
    |- context [__get_percpu round ?os ?s] =>
      rewrite (get_percpu_cached round os s Hd)
  | Hd : finished (timer_percpu _) (clock ?os) = true,
    Hr : cpu_times_percent_reply ?os = Some ?l
    |- context [__get_percpu round ?os ?s] =>
      rewrite (get_percpu_refresh round os s l Hd Hr)
  | Hd : finished (timer_percpu _) (clock ?os) = true,
    Hr : cpu_times_percent_reply ?os = None
    |- context [__get_percpu round ?os ?s] =>
      rewrite (get_percpu_raise round os s Hd Hr)
  end.

Ltac again_get_info :=
  match goal with
  | Hd : finished (timer_cpu_info _) (clock ?os) = false
    |- context [get_info ?os ?s] => rewrite (get_info_cached os s Hd)
  | Hd : finished (timer_cpu_info _) (clock ?os) = true,
    H0 : cpu_freq_reply ?os 0 = Some ?f0, H1 : cpu_freq_reply ?os 1 = Some ?f1
    |- context [get_info ?os ?s] =>
      rewrite (get_info_refresh os s f0 f1 Hd H0 H1)
  | Hd : finished (timer_cpu_info _) (clock ?os) = true,
    H0 : cpu_freq_reply ?os 0 = Some ?f0, H1 : cpu_freq_reply ?os 1 = None
    |- context [get_info ?os ?s] =>
      rewrite (get_info_raise_second os s f0 Hd H0 H1)
  | Hd : finished (timer_cpu_info _) (clock ?os) = true,
    H0 : cpu_freq_reply ?os 0 = None
    |- context [get_info ?os ?s] => rewrite (get_info_raise_first os s Hd H0)
  end.

Section Commute.

Variable round : float -> Z -> float.

(** After the split of both first calls: fix the list of the per-core
    refresh, if there is one, run the two second calls, compare. *)
Ltac second_calls :=
  cbn [after fst snd];
  try match goal with
      | |- context [percpu_dicts round ?l] =>
          let Hdicts := fresh "Hdicts" in
          destruct (percpu_dicts round l) eqn:Hdicts
      end;
  repeat first [again_get_cpu | again_get_info | again_get_percpu round];
  repeat match goal with
         | Hdicts : percpu_dicts round _ = _ |- _ => rewrite Hdicts
         end;
  cbn [returned calls after fst snd]; repeat split.

(** Calls of two different accessors do not see each other: the second
    returns or raises, and asks the system, exactly as it would have on the
    instance before the first; and the instance they leave does not depend on
    which came first. *)
Theorem different_accessors_commute op op' os os' self :
  op <> op' ->
  returned (perform round op' os' (after (perform round op os self))) =
    returned (perform round op' os' self) /\
  calls (perform round op' os' (after (perform round op os self))) =
    calls (perform round op' os' self) /\
  after (perform round op' os' (after (perform round op os self))) =
    after (perform round op os (after (perform round op' os' self))).
Proof.
  intros Hne. unfold perform, forget, get.
  destruct op as [[]|], op' as [[]|]; try congruence.
  - split_get_percpu round os self; split_get_cpu os' self; second_calls.
  - split_get_percpu round os self; split_get_info os' self; second_calls.
  - split_get_cpu os self; split_get_percpu round os' self; second_calls.
  - split_get_cpu os self; split_get_info os' self; second_calls.
  - split_get_info os self; split_get_percpu round os' self; second_calls.
  - split_get_info os self; split_get_cpu os' self; second_calls.
Qed.

End Commute.

Lemma different_accessors_commute_witness :
  returned (perform round_example GetInfo (os_failing 1)
              (after (perform round_example (Get false) (os_example 0)
                        (__init__ 0 1)))) =
    returned (perform round_example GetInfo (os_failing 1) (__init__ 0 1)) /\
  calls (perform round_example GetInfo (os_failing 1)
           (after (perform round_example (Get false) (os_example 0)
                     (__init__ 0 1)))) =
    calls (perform round_example GetInfo (os_failing 1) (__init__ 0 1)) /\
  after (perform round_example GetInfo (os_failing 1)
           (after (perform round_example (Get false) (os_example 0)
                     (__init__ 0 1)))) =
    after (perform round_example (Get false) (os_example 0)
             (after (perform round_example GetInfo (os_failing 1)
                       (__init__ 0 1)))).
Proof.
  apply (different_accessors_commute round_example (Get false) GetInfo
           (os_example 0) (os_failing 1) (__init__ 0 1)).
  discriminate.
Defined.

(** * What holds of every instance *)

Section Reachable.

Variable round : float -> Z -> float.

(** The stored list of the cores is, at any time, the list built from some
    list of records. *)
Lemma perform_percpu_dicts op os self :
  (exists records, percpu_percent self = percpu_dicts round records) ->
  exists records,
    percpu_percent (after (perform round op os self)) =
      percpu_dicts round records.
Proof.
  intros Hinv. split_call round op os self; cbn [after fst snd]; try assumption.
  - exists l. apply percpu_percent_after_loop.
  - by exists [].
Qed.

Lemma run_percpu_dicts script : forall self,
  (exists records, percpu_percent self = percpu_dicts round records) ->
  exists records,
    percpu_percent (run round script self) = percpu_dicts round records.
Proof.
  induction script as [|step script IH]; intros self Hinv; [assumption|].
  change (run round (step :: script) self)
    with (run round script (after (perform round step.1 step.2 self))).
  apply IH, perform_percpu_dicts, Hinv.
Qed.

(** Whatever calls were made on an instance since [__init__], with whatever
    outcomes, a list that [get(percpu=True)] returns is numbered by position:
    its sample at position [i] has [cpu_number] [i], the key name of
    [get_key], and a [total] that is the rounded complement of its own
    [idle]. *)
Theorem returned_cores_are_numbered t0 c script os v i cpu :
  returned (__get_percpu round os (run round script (__init__ t0 c))) =
    Return v ->
  v !! i = Some cpu ->
  cpu !! "cpu_number" = Some (VInt (Z.of_nat i)) /\
  cpu !! "key" = Some (VStr "cpu_number") /\
  exists x,
    cpu !! "idle" = Some (VFloat x) /\
    cpu !! "total" = Some (VFloat (round (100 - x)%float 1)).
Proof.
  intros Hret Hcpu.
  assert (exists records, v = percpu_dicts round records) as [records ->].
  { destruct (run_percpu_dicts script (__init__ t0 c)) as [records Hrecords];
      [by exists []|].
    revert Hret.
    split_get_percpu round os (run round script (__init__ t0 c));
      cbn [returned fst]; intros Hret; try discriminate;
      injection Hret as <-; eauto. }
  destruct (lookup_percpu_dicts round records i cpu Hcpu) as (cputimes & _ & ->).
  split; [apply cpu_dict_cpu_number|]. split; [apply cpu_dict_key|].
  exists (idle cputimes). split; [apply cpu_dict_idle | apply cpu_dict_total].
Qed.

(** Until its first refresh has succeeded an accessor has the timer of
    [__init__]; afterwards it has a sample. *)
Lemma perform_sampled t0 op os self :
  (timer_cpu self = Timer_new t0 0 \/ exists x, cpu_percent self = VFloat x) ->
  timer_cpu (after (perform round op os self)) = Timer_new t0 0 \/
  exists x, cpu_percent (after (perform round op os self)) = VFloat x.
Proof.
  intros Hinv. split_call round op os self; cbn [after fst snd];
    try assumption; try (right; by eexists).
  destruct (percpu_dicts round l); assumption.
Qed.

Lemma perform_info_sampled t0 op os self :
  dom (cpu_info self) ⊆ info_keys /\
  (timer_cpu_info self = Timer_new t0 0 \/ info_filled (cpu_info self)) ->
  dom (cpu_info (after (perform round op os self))) ⊆ info_keys /\
  (timer_cpu_info (after (perform round op os self)) = Timer_new t0 0 \/
   info_filled (cpu_info (after (perform round op os self)))).
Proof.
  intros [Hkeys Hinv]. split; [by apply perform_info_keys|].
  destruct Hinv as [Htimer|Hfilled]; [|right; by apply perform_info_filled].
  split_call round op os self; cbn [after fst snd]; try (by left).
  - destruct (percpu_dicts round l); by left.
  - right. cbn [cpu_info set_cpu_info set_timer_cpu_info]. unfold info_filled.
    split; [rewrite !dom_insert_L; unfold info_keys in *; clear -Hkeys;
            set_solver|].
    split; [eexists; do 2 (rewrite lookup_insert_ne by done);
            apply lookup_insert_eq|].
    split; eexists; [rewrite lookup_insert_ne by done|]; apply lookup_insert_eq.
Qed.

Lemma run_sampled t0 script : forall self,
  (timer_cpu self = Timer_new t0 0 \/ exists x, cpu_percent self = VFloat x) ->
  timer_cpu (run round script self) = Timer_new t0 0 \/
  exists x, cpu_percent (run round script self) = VFloat x.
Proof.
  induction script as [|step script IH]; intros self Hinv; [assumption|].
  change (run round (step :: script) self)
    with (run round script (after (perform round step.1 step.2 self))).
  apply IH, perform_sampled, Hinv.
Qed.

Lemma run_info_sampled t0 script : forall self,
  dom (cpu_info self) ⊆ info_keys /\
  (timer_cpu_info self = Timer_new t0 0 \/ info_filled (cpu_info self)) ->
  dom (cpu_info (run round script self)) ⊆ info_keys /\
  (timer_cpu_info (run round script self) = Timer_new t0 0 \/
   info_filled (cpu_info (run round script self))).
Proof.
  induction script as [|step script IH]; intros self Hinv; [assumption|].
  change (run round (step :: script) self)
    with (run round script (after (perform round step.1 step.2 self))).
  apply IH, perform_info_sampled, Hinv.
Qed.

(** The values [__init__] stores are never handed out: on an instance built
    at [t0], after any calls, a call at a clock not before [t0] that returns
    from [get(percpu=False)] returns a float of the provider, not the
    integer 0, and one that returns from [get_info] returns a mapping with
    its three keys, not the empty one. *)
Theorem initial_values_are_never_returned t0 c script os :
  (t0 <= clock os)%Q ->
  (forall v, returned (__get_cpu os (run round script (__init__ t0 c))) =
     Return v -> exists x, v = VFloat x) /\
  (forall info, returned (get_info os (run round script (__init__ t0 c))) =
     Return info -> info_filled info).
Proof.
  intros Hclock. split.
  - intros v.
    destruct (run_sampled t0 script (__init__ t0 c)) as [Htimer|[x Hx]];
      [by left| |];
      split_get_cpu os (run round script (__init__ t0 c));
      cbn [returned fst]; intros Hret; try discriminate;
      injection Hret as <-; eauto.
    rewrite Htimer, finished_Timer_new_0 in Hdue by assumption. discriminate.
  - intros info.
    destruct (run_info_sampled t0 script (__init__ t0 c)) as [Hkeys Hinv].
    { split; [cbn; rewrite dom_empty_L; set_solver | by left]. }
    split_get_info os (run round script (__init__ t0 c));
      cbn [returned fst]; intros Hret; try discriminate;
      injection Hret as <-.
    + unfold info_filled.
      split; [rewrite !dom_insert_L; unfold info_keys in *; clear -Hkeys;
              set_solver|].
      split; [eexists; do 2 (rewrite lookup_insert_ne by done);
              apply lookup_insert_eq|].
      split; eexists; [rewrite lookup_insert_ne by done|];
        apply lookup_insert_eq.
    + destruct Hinv as [Htimer|Hfilled]; [|assumption].
      rewrite Htimer, finished_Timer_new_0 in Hdue by assumption. discriminate.
Qed.

End Reachable.

Lemma returned_cores_are_numbered_witness :
  cpu_dict round_example "cpu_number" 1
    {| user := 5; system := 2.5; idle := 92; nice := Some 0.5%float;
       iowait := None; irq := None; softirq := None; steal := None;
       guest := None; guest_nice := None |} !! "cpu_number" = Some (VInt 1).
Proof.
  apply (returned_cores_are_numbered round_example 0 1
           [(GetInfo, os_example 0)] (os_example 1)
           (percpu_dicts round_example records_example) 1
           (cpu_dict round_example "cpu_number" 1
              {| user := 5; system := 2.5; idle := 92; nice := Some 0.5%float;
                 iowait := None; irq := None; softirq := None; steal := None;
                 guest := None; guest_nice := None |}));
    reflexivity.
Defined.

Lemma initial_values_are_never_returned_witness :
  (exists x, VFloat 12.5 = VFloat x) /\
  info_filled
    (cpu_info
       (after (get_info (os_example 0)
                 (run round_example [(Get true, os_failing 0)] (__init__ 0 1))))).
Proof.
  destruct (initial_values_are_never_returned round_example 0 1
              [(Get true, os_failing 0)] (os_example 0)) as [Hcpu Hinfo];
    [discriminate|].
  split.
  - apply Hcpu. reflexivity.
  - apply Hinfo. reflexivity.
Defined.

(** * The name of the processor *)

Lemma split_cons sep s : exists piece pieces, split sep s = piece :: pieces.
Proof.
  destruct s as [|c s]; simpl; [eauto|].
  destruct (Ascii.eqb c sep); [eauto|]. destruct (split sep s); eauto.
Qed.

Lemma split_without_sep sep s : contains sep s = false -> split sep s = [s].
Proof.
  induction s as [|c s IH]; simpl; [reflexivity|]. intros Hno.
  apply orb_false_iff in Hno as [Hc Hs]. rewrite Hc, (IH Hs). reflexivity.
Qed.

Lemma split_at_first_sep sep key rest :
  contains sep key = false ->
  split sep (String.append key (String sep rest)) = key :: split sep rest.
Proof.
  induction key as [|c key IH]; simpl; intros Hno.
  - rewrite Ascii.eqb_refl. reflexivity.
  - apply orb_false_iff in Hno as [Hc Hkey]. rewrite Hc, (IH Hkey). reflexivity.
Qed.

Lemma split_second_piece sep s :
  split sep s !! 1%nat = None <-> contains sep s = false.
Proof.
  split; [|intros Hno; by rewrite split_without_sep].
  induction s as [|c s IH]; simpl; [reflexivity|].
  destruct (Ascii.eqb c sep); simpl.
  - destruct (split_cons sep s) as (piece & pieces & ->). discriminate.
  - destruct (split_cons sep s) as (piece & pieces & Hsplit).
    rewrite Hsplit in *. exact IH.
Qed.

Lemma contains_append c s t :
  contains c (String.append s t) = contains c s || contains c t.
Proof.
  induction s as [|c' s IH]; simpl; [reflexivity|].
  rewrite IH. apply orb_assoc.
Qed.

Lemma length_append s t :
  String.length (String.append s t) = (String.length s + String.length t)%nat.
Proof. induction s as [|c s IH]; simpl; [reflexivity|]. by rewrite IH. Qed.

Lemma substring_prefix s t :
  String.substring 0 (String.length s) (String.append s t) = s.
Proof.
  induction s as [|c s IH]; simpl.
  - destruct t; reflexivity.
  - by rewrite IH.
Qed.

Lemma substring_short n s :
  (String.length s <= n)%nat -> String.substring n 0 s = EmptyString.
Proof.
  revert s. induction n as [|n IH]; intros [|c s] Hshort; simpl;
    try reflexivity.
  apply IH. simpl in Hshort. lia.
Qed.

(** [field[1:-2]] drops the first character and the last two. *)
Lemma slice_drops_three c name a b :
  slice (String c (String.append name (String a (String b EmptyString))))
    1 (-2) = name.
Proof.
  unfold slice, slice_bound. cbn [String.length]. rewrite length_append.
  cbn [String.length Z.ltb Z.compare].
  replace (Z.to_nat (Z.min _ 1)) with 1%nat by lia.
  replace (Z.to_nat (Z.max 0 _) - 1)%nat with (String.length name) by lia.
  cbn [String.substring]. apply substring_prefix.
Qed.

(** A field of at most three characters has nothing left. *)
Lemma slice_of_short_field field :
  (String.length field <= 3)%nat -> slice field 1 (-2) = EmptyString.
Proof.
  intros Hshort. unfold slice, slice_bound. cbn [Z.ltb Z.compare].
  replace (Z.to_nat (Z.max 0 _) - Z.to_nat (Z.min _ 1))%nat with 0%nat by lia.
  destruct field as [|c field]; [reflexivity|].
  replace (Z.to_nat (Z.min _ 1)) with 1%nat by (cbn [String.length]; lia).
  cbn [String.substring]. destruct field as [|c' field]; reflexivity.
Qed.

Lemma get_info_stores_name os self :
  finished (timer_cpu_info self) (clock os) = true ->
  cpu_info (after (get_info os self)) !! "cpu_name" =
    Some (VStr (stored_name os)).
Proof.
  intros Hdue. split_get_info os self; try congruence;
    cbn [after cpu_info set_cpu_info set_timer_cpu_info fst snd].
  - do 2 (rewrite lookup_insert_ne by done). apply lookup_insert_eq.
  - rewrite lookup_insert_ne by done. apply lookup_insert_eq.
  - apply lookup_insert_eq.
Qed.

Lemma append_empty s : String.append s EmptyString = s.
Proof.
  induction s as [|c s IH]; [reflexivity|].
  change (String c (String.append s EmptyString) = String c s). by f_equal.
Qed.

(** The field the parse reads: what lies between the first colon of the
    fifth line and the next colon, or the end of the line. *)
Lemma cpuinfo_name_field lines key field tail :
  lines !! 4%nat = Some (String.append key (String ":" (String.append field tail))) ->
  contains ":" key = false ->
  contains ":" field = false ->
  tail = EmptyString \/ (exists rest, tail = String ":" rest) ->
  cpuinfo_name (Some lines) = Some (slice field 1 (-2)).
Proof.
  intros Hline Hkey Hfield Htail. unfold cpuinfo_name. rewrite Hline.
  rewrite split_at_first_sep by assumption.
  destruct Htail as [->|[rest ->]].
  - rewrite append_empty, split_without_sep by assumption. reflexivity.
  - rewrite split_at_first_sep by assumption. reflexivity.
Qed.

(** The source of the name fails, and the placeholder is stored, in three
    cases and no other: /proc/cpuinfo cannot be read, it has fewer than
    five lines, or its fifth line has no colon. *)
Theorem cpuinfo_name_fails_iff file :
  cpuinfo_name file = None <->
  file = None \/
  exists lines, file = Some lines /\
    ((length lines <= 4)%nat \/
     exists line, lines !! 4%nat = Some line /\ contains ":" line = false).
Proof.
  unfold cpuinfo_name. destruct file as [lines|]; [|by split; [left|]].
  destruct (lines !! 4%nat) as [line|] eqn:Hline.
  - destruct (split ":" line !! 1%nat) as [field|] eqn:Hfield.
    + split; [discriminate|].
      intros [|(lines' & [= <-] & [Hlen|(line' & Hline' & Hno)])];
        [discriminate| |].
      * apply lookup_ge_None_2 in Hlen. congruence.
      * rewrite Hline in Hline'. injection Hline' as <-.
        apply split_second_piece in Hno. congruence.
    + split; [|reflexivity]. intros _. right. exists lines.
      split; [reflexivity|]. right. exists line. split; [exact Hline|].
      by apply split_second_piece.
  - split; [|reflexivity]. intros _. right. exists lines.
    split; [reflexivity|]. left. by apply lookup_ge_None_1.
Qed.

(** Of the text after the colon the stored name keeps all but the first
    character and the last two: with the line as [readlines] gives it, the
    blank after the colon, the last character of the name and the end of
    line. *)
Theorem get_info_name_drops_three_characters os self lines key c name a b tail :
  finished (timer_cpu_info self) (clock os) = true ->
  proc_cpuinfo os = Some lines ->
  lines !! 4%nat =
    Some (String.append key
            (String ":"
               (String.append
                  (String c (String.append name (String a (String b EmptyString))))
                  tail))) ->
  contains ":" key = false ->
  contains ":" (String c (String.append name (String a (String b EmptyString))))
    = false ->
  tail = EmptyString \/ (exists rest, tail = String ":" rest) ->
  cpu_info (after (get_info os self)) !! "cpu_name" = Some (VStr name).
Proof.
  intros Hdue Hfile Hline Hkey Hfield Htail.
  rewrite get_info_stores_name by assumption. unfold stored_name.
  rewrite Hfile, (cpuinfo_name_field _ _ _ _ Hline Hkey Hfield Htail).
  by rewrite slice_drops_three.
Qed.

(** When at most three characters follow the colon (up to the next colon or
    the end of the line), the parse succeeds with nothing left: the stored
    name is the empty string, not the placeholder. *)
Theorem get_info_short_name_is_empty os self lines key field tail :
  finished (timer_cpu_info self) (clock os) = true ->
  proc_cpuinfo os = Some lines ->
  lines !! 4%nat = Some (String.append key (String ":" (String.append field tail))) ->
  contains ":" key = false ->
  contains ":" field = false ->
  tail = EmptyString \/ (exists rest, tail = String ":" rest) ->
  (String.length field <= 3)%nat ->
  cpu_info (after (get_info os self)) !! "cpu_name" = Some (VStr EmptyString).
Proof.
  intros Hdue Hfile Hline Hkey Hfield Htail Hshort.
  rewrite get_info_stores_name by assumption. unfold stored_name.
  rewrite Hfile, (cpuinfo_name_field _ _ _ _ Hline Hkey Hfield Htail).
  by rewrite slice_of_short_field.
Qed.

Lemma get_info_name_drops_three_characters_witness :
  cpu_info (after (get_info (os_example 0) (__init__ 0 1))) !! "cpu_name" =
    Some (VStr "Intel(R) Core(TM) i7-8550U CPU @ 1.80GH").
Proof.
  apply (get_info_name_drops_three_characters (os_example 0) (__init__ 0 1)
           cpuinfo_example "model name " " "
           "Intel(R) Core(TM) i7-8550U CPU @ 1.80GH" "z" "010" EmptyString);
    try reflexivity.
  by left.
Defined.

Lemma get_info_short_name_is_empty_witness :
  cpu_info
    (after (get_info
              {| clock := 0; cpu_percent_reply := None;
                 cpu_times_percent_reply := None;
                 cpu_freq_reply := fun _ => None;
                 proc_cpuinfo := Some ["a"; "b"; "c"; "d"; "model name: x:y"] |}
              (__init__ 0 1))) !! "cpu_name" = Some (VStr EmptyString).
Proof.
  apply (get_info_short_name_is_empty _ (__init__ 0 1)
           ["a"; "b"; "c"; "d"; "model name: x:y"] "model name" " x" ":y");
    try reflexivity.
  - right. by exists "y".
  - cbn. lia.
Defined.

(** * The keys of a sample *)

Section SampleKeys.

Variable round : float -> Z -> float.

Lemma cpu_dict_other_key key n cputimes k :
  k ∉ mandatory_keys ->
  (forall attribute, (k, attribute) ∉ optional_fields) ->
  cpu_dict round key n cputimes !! k = None.
Proof.
  unfold mandatory_keys, optional_fields. intros Hmandatory Hoptional.
  unfold cpu_dict.
  repeat (rewrite lookup_setitem_if_hasattr;
          match goal with
          | |- context [decide (?k' = k)] =>
              destruct (decide (k' = k)) as [<-|_];
              [ exfalso; eapply Hoptional;
                solve [repeat first [apply list_elem_of_here
                                    | apply list_elem_of_further]] |]
          end).
  repeat (rewrite lookup_insert_ne by (intros <-; apply Hmandatory; set_solver)).
  apply lookup_empty.
Qed.

(** A sample has its six fixed keys, the keys of the optional attributes
    its record has, and no other key. *)
Theorem sample_keys key n cputimes k :
  is_Some (cpu_dict round key n cputimes !! k) <->
  k ∈ mandatory_keys \/
  exists attribute,
    (k, attribute) ∈ optional_fields /\ is_Some (attribute cputimes).
Proof.
  split.
  - intros Hsome.
    destruct (decide (k ∈ mandatory_keys)) as [|Hmandatory]; [by left|].
    right.
    destruct (decide (k ∈ optional_fields.*1)) as [Hin|Hnot].
    + apply list_elem_of_fmap in Hin as ([k' attribute] & -> & Hin).
      exists attribute. split; [assumption|].
      rewrite (cpu_dict_optional round _ _ _ _ _ Hin) in Hsome.
      by apply fmap_is_Some in Hsome.
    + rewrite cpu_dict_other_key in Hsome; [by destruct Hsome|assumption|].
      intros attribute Hin. apply Hnot.
      apply list_elem_of_fmap. by exists (k, attribute).
  - intros [Hmandatory|(attribute & Hin & Hsome)].
    + unfold mandatory_keys in Hmandatory.
      repeat (apply elem_of_union in Hmandatory as [Hmandatory|Hmandatory]);
        apply elem_of_singleton in Hmandatory as ->;
        [ rewrite cpu_dict_key | rewrite cpu_dict_cpu_number
        | rewrite cpu_dict_total | rewrite cpu_dict_user
        | rewrite cpu_dict_system | rewrite cpu_dict_idle ]; eauto.
    + rewrite (cpu_dict_optional round _ _ _ _ _ Hin). by apply fmap_is_Some.
Qed.

End SampleKeys.
